(** * Batch-level stock ledger of the pharmacy point of sale

    A shallow embedding of the ledger code of the repository: the SQLite
    tables the ledger touches, the statements the Python code sends to
    them, and the three revisions of the sale, return and intake paths
    (mainproject.py, 3.py and 4.py).

    Conventions.
    - A table is the list of its rows in rowid order.  Every table is
      declared [INTEGER PRIMARY KEY AUTOINCREMENT]; the counter SQLite keeps
      in [sqlite_sequence] is the [seq_*] field of the store.
    - [DB.execute] opens a connection, runs ONE statement and commits it, so
      a statement is a function from store to store and there is no
      enclosing transaction.
    - [created_at] is a TEXT column holding ['%Y-%m-%d %H:%M:%S']; SQLite
      compares TEXT bytewise, which is [String.compare].
    - REAL columns (prices, cost) are carried as integers in minor units;
      the ledger never computes with them.
    - The message boxes shown to the user are returned as a list of [Msg].
    - The connection sets [PRAGMA foreign_keys = ON] and the Python binding
      refuses an integer outside 64 bits with [OverflowError] before the
      statement runs.  A statement that raises writes nothing; what was
      committed before it stays, since nothing encloses the statements. *)

From Stdlib Require Import ZArith List String Ascii Bool Lia.
From Stdlib Require Import Permutation Sorted.
Import ListNotations.
Open Scope Z_scope.

Set Implicit Arguments.

(** ** Rows *)

Record Product := mkProduct {
  p_id : Z;
  p_name : string;
  p_sale_price : Z
}.

Record Batch := mkBatch {
  b_id : Z;
  b_product_id : Z;
  b_supplier_id : option Z;
  b_batch_no : option string;
  b_quantity : Z;
  b_expiry_date : option string;
  b_cost_price : Z;
  b_created_at : string
}.

Record Sale := mkSale {
  s_id : Z;
  s_user_id : Z;
  s_total : Z;
  s_created_at : string
}.

Record SaleItem := mkSaleItem {
  si_id : Z;
  si_sale_id : Z;
  si_product_id : Z;
  si_quantity : Z;
  si_price : Z
}.

Record SaleItemBatch := mkSaleItemBatch {
  sib_id : Z;
  sib_sale_item_id : Z;
  sib_batch_id : Z;
  sib_quantity : Z
}.

Record Return := mkReturn {
  r_id : Z;
  r_sale_item_id : Z;
  r_quantity : Z;
  r_reason : string
}.

(** ** The store *)

Record DB := mkDB {
  products : list Product;
  batches : list Batch;
  sales : list Sale;
  sale_items : list SaleItem;
  sale_item_batches : list SaleItemBatch;
  returns : list Return;
  seq_batches : Z;
  seq_sales : Z;
  seq_sale_items : Z;
  seq_sale_item_batches : Z;
  seq_returns : Z
}.

Definition empty_ledger (ps : list Product) : DB :=
  mkDB ps [] [] [] [] [] 0 0 0 0 0.

Definition set_batches (db : DB) (bs : list Batch) (sq : Z) : DB :=
  mkDB (products db) bs (sales db) (sale_items db) (sale_item_batches db)
       (returns db) sq (seq_sales db) (seq_sale_items db)
       (seq_sale_item_batches db) (seq_returns db).

Definition set_sales (db : DB) (ss : list Sale) (sq : Z) : DB :=
  mkDB (products db) (batches db) ss (sale_items db) (sale_item_batches db)
       (returns db) (seq_batches db) sq (seq_sale_items db)
       (seq_sale_item_batches db) (seq_returns db).

Definition set_sale_items (db : DB) (l : list SaleItem) (sq : Z) : DB :=
  mkDB (products db) (batches db) (sales db) l (sale_item_batches db)
       (returns db) (seq_batches db) (seq_sales db) sq
       (seq_sale_item_batches db) (seq_returns db).

Definition set_sale_item_batches (db : DB) (l : list SaleItemBatch) (sq : Z) : DB :=
  mkDB (products db) (batches db) (sales db) (sale_items db) l
       (returns db) (seq_batches db) (seq_sales db) (seq_sale_items db)
       sq (seq_returns db).

Definition set_returns (db : DB) (l : list Return) (sq : Z) : DB :=
  mkDB (products db) (batches db) (sales db) (sale_items db)
       (sale_item_batches db) l (seq_batches db) (seq_sales db)
       (seq_sale_items db) (seq_sale_item_batches db) sq.

Definition with_quantity (b : Batch) (q : Z) : Batch :=
  mkBatch (b_id b) (b_product_id b) (b_supplier_id b) (b_batch_no b) q
          (b_expiry_date b) (b_cost_price b) (b_created_at b).

Definition with_si_quantity (i : SaleItem) (q : Z) : SaleItem :=
  mkSaleItem (si_id i) (si_sale_id i) (si_product_id i) q (si_price i).

(** ** Exceptions *)

Inductive Exn : Type :=
| OverflowError
| IntegrityError
| ReceiptError.

(** What [sqlite3] can bind to an INTEGER parameter. *)
Definition fits_int64 (z : Z) : bool :=
  (-9223372036854775808 <=? z) && (z <? 9223372036854775808).

(** ** Statements *)

(** [UPDATE batches SET quantity=quantity-? WHERE id=?;] *)
Definition update_batch_sub (db : DB) (take bid : Z) : DB :=
  set_batches db
    (map (fun b => if b_id b =? bid then with_quantity b (b_quantity b - take) else b)
         (batches db))
    (seq_batches db).

(** [UPDATE batches SET quantity = quantity + ? WHERE id = ?;] *)
Definition update_batch_add (db : DB) (give bid : Z) : DB :=
  set_batches db
    (map (fun b => if b_id b =? bid then with_quantity b (b_quantity b + give) else b)
         (batches db))
    (seq_batches db).

(** [UPDATE sale_items SET quantity = quantity - ? WHERE id = ?] *)
Definition update_sale_item_sub (db : DB) (q iid : Z) : DB :=
  set_sale_items db
    (map (fun i => if si_id i =? iid then with_si_quantity i (si_quantity i - q) else i)
         (sale_items db))
    (seq_sale_items db).

(** [INSERT INTO batches(...)]: the new row takes the next rowid, which
    [execute] returns as [lastrowid]. *)
Definition insert_batch (db : DB) (pid : Z) (sup : option Z) (no : option string)
    (q : Z) (expiry : option string) (cost : Z) (created : string) : DB * Z :=
  let id := seq_batches db + 1 in
  (set_batches db (batches db ++ [mkBatch id pid sup no q expiry cost created]) id, id).

Definition insert_sale (db : DB) (user total : Z) (created : string) : DB * Z :=
  let id := seq_sales db + 1 in
  (set_sales db (sales db ++ [mkSale id user total created]) id, id).

Definition insert_sale_item (db : DB) (sid pid q price : Z) : DB * Z :=
  let id := seq_sale_items db + 1 in
  (set_sale_items db (sale_items db ++ [mkSaleItem id sid pid q price]) id, id).

(** Rows looked up by the foreign keys. *)
Definition item_exists (db : DB) (iid : Z) : bool :=
  existsb (fun i => si_id i =? iid) (sale_items db).

Definition batch_exists (db : DB) (bid : Z) : bool :=
  existsb (fun b => b_id b =? bid) (batches db).

Definition sale_exists (db : DB) (sid : Z) : bool :=
  existsb (fun s => s_id s =? sid) (sales db).

Definition product_exists (db : DB) (pid : Z) : bool :=
  existsb (fun p => p_id p =? pid) (products db).

(** [INSERT INTO sale_item_batches(sale_item_id, batch_id, quantity)]:
    [sale_item_id] and [batch_id] are foreign keys; when either row is
    missing the statement raises and nothing is written. *)
Definition insert_sale_item_batch (db : DB) (iid bid q : Z) : (DB * Z) + Exn :=
  if item_exists db iid && batch_exists db bid then
    let id := seq_sale_item_batches db + 1 in
    inl (set_sale_item_batches db
           (sale_item_batches db ++ [mkSaleItemBatch id iid bid q]) id, id)
  else inr IntegrityError.

(** [INSERT INTO sale_items(sale_id,product_id,quantity,price)] as the
    sale tab of mainproject.py and 3.py sends it, with a quantity typed by
    the user: the binding refuses a quantity outside 64 bits, the foreign
    keys refuse a missing sale or product. *)
Definition execute_insert_sale_item (db : DB) (sid pid q price : Z) : (DB * Z) + Exn :=
  if negb (fits_int64 q) then inr OverflowError
  else if sale_exists db sid && product_exists db pid
       then inl (insert_sale_item db sid pid q price)
       else inr IntegrityError.

Definition insert_return (db : DB) (iid q : Z) (reason : string) : DB * Z :=
  let id := seq_returns db + 1 in
  (set_returns db (returns db ++ [mkReturn id iid q reason]) id, id).

(** ** ORDER BY

    The queries of the ledger order by one column and name no second key.
    SQL leaves the relative order of rows with equal keys to the engine, so
    the engine's sort is a component of the model: any function that
    returns a permutation of its input sorted by the requested key. *)

Record Engine := mkEngine {
  order_by : forall A : Type, (A -> A -> bool) -> list A -> list A;
  order_by_perm : forall A (le : A -> A -> bool) l, Permutation l (order_by le l);
  order_by_sorted : forall A (le : A -> A -> bool),
      (forall x y, le x y = true \/ le y x = true) ->
      forall l, Sorted (fun x y => le x y = true) (order_by le l)
}.

Section Insertion.
Variable A : Type.
Variable le : A -> A -> bool.

(** Insert before the first row that is not smaller: rows with equal keys
    keep the order of the table scan. *)
Fixpoint insert_stable (a : A) (l : list A) : list A :=
  match l with
  | [] => [a]
  | b :: l' => if le a b then a :: b :: l' else b :: insert_stable a l'
  end.

Definition sort_stable (l : list A) : list A := fold_right insert_stable [] l.

End Insertion.

Section InsertionFacts.
Variable A : Type.
Variable le : A -> A -> bool.

Lemma insert_stable_perm a l : Permutation (a :: l) (insert_stable le a l).
Proof.
  induction l as [|b l IH]; simpl; [reflexivity|].
  destruct (le a b); [reflexivity|].
  rewrite perm_swap. now constructor.
Qed.

Lemma sort_stable_perm l : Permutation l (sort_stable le l).
Proof.
  induction l as [|a l IH]; simpl; [constructor|].
  rewrite <- insert_stable_perm. now constructor.
Qed.

Hypothesis le_total : forall x y, le x y = true \/ le y x = true.

Lemma insert_stable_sorted a l :
  Sorted (fun x y => le x y = true) l ->
  Sorted (fun x y => le x y = true) (insert_stable le a l).
Proof.
  induction l as [|b l IH]; simpl; intros Hs.
  - repeat constructor.
  - destruct (le a b) eqn:Hab.
    + constructor; [assumption|]. now constructor.
    + inversion Hs as [|? ? Hs' Hhd]; subst.
      constructor; [now apply IH|].
      destruct l as [|c l]; simpl.
      * constructor. destruct (le_total a b); congruence.
      * destruct (le a c); constructor.
        -- destruct (le_total a b); congruence.
        -- now inversion Hhd.
Qed.

Lemma sort_stable_sorted l : Sorted (fun x y => le x y = true) (sort_stable le l).
Proof.
  induction l as [|a l IH]; simpl; [constructor|]. now apply insert_stable_sorted.
Qed.

End InsertionFacts.

(** SQLite scans a table in rowid order and its sorter keeps rows with
    equal keys in the order they were fed, so rows with the same
    [created_at] come back in rowid order. *)
Definition rowid_engine : Engine :=
  mkEngine sort_stable sort_stable_perm sort_stable_sorted.

(** ** What the user sees and types *)

Inductive Msg : Type :=
| Warn_Empty
| Warn_NotFound
| Warn_InvalidQty
| Warn_Stock (pname : string) (short : Z)
| Info_SaleComplete (sid : Z)
| Err_Open
| Err_OutOfStock (lines : list (string * Z * Z))
| Err_SelectItem
| Err_InvalidReturnQuantity
| Info_Returned (q : Z) (product : string)
| Warn_ReturnQtyPositive
| Info_ReturnDone
| Err_ProductRequired
| Err_QuantityPositive
| Err_Exception (e : Exn)
| Info_BatchSaved
| Uncaught (e : Exn).

(** [Err_Exception e] is the error box an [except] branch shows for [e];
    [Uncaught e] ends the list when the callback was left by an exception
    that nothing caught.  The INSERT of 3.py that meets a NULL product
    ends that way. *)
Definition Err_Integrity : Msg := Uncaught IntegrityError.

Definition uncaught (e : option Exn) : list Msg :=
  match e with
  | Some e => [Uncaught e]
  | None => []
  end.

(** What became of the receipt of mainproject.py and 3.py: rendered and
    opened, rendered but not opened, or [generate_receipt] raised. *)
Inductive Receipt : Type :=
| ReceiptOpened
| ReceiptNotOpened
| ReceiptRaised.

(** One entry of [self.cart]. *)
Record CartLine := mkCartLine {
  c_id : Z;
  c_name : string;
  c_qty : Z;
  c_price : Z;
  c_subtotal : Z
}.

(** One row of the returns tree view: the values of a [sale_items] row as
    they were when the sale was loaded. *)
Record TreeRow := mkTreeRow {
  t_id : Z;
  t_product : string;
  t_qty : Z;
  t_price : Z;
  t_product_id : Z
}.

(** The fields of the add-batch dialog.  The supplier is carried as the id
    the form's lookup resolved; the quantity as the integer [int(...)]
    returned. *)
Record BatchForm := mkBatchForm {
  f_product : string;
  f_supplier : option Z;
  f_batch_no : string;
  f_quantity : Z;
  f_expiry : string;
  f_cost_price : Z
}.

(** [str.isdigit] and [int] on the text of the search box, for text made
    of ASCII characters. *)
Definition is_digit (c : ascii) : bool :=
  let n := N_of_ascii c in ((48 <=? n) && (n <=? 57))%N.

Fixpoint all_digits (s : string) : bool :=
  match s with
  | EmptyString => true
  | String c s' => is_digit c && all_digits s'
  end.

Definition isdigit (s : string) : bool :=
  match s with
  | EmptyString => false
  | _ => all_digits s
  end.

Fixpoint int_acc (acc : Z) (s : string) : Z :=
  match s with
  | EmptyString => acc
  | String c s' => int_acc (10 * acc + (Z.of_N (N_of_ascii c) - 48)) s'
  end.

Definition int_of (s : string) : Z := int_acc 0 s.

(** [x or None] on a text field. *)
Definition or_none (s : string) : option string :=
  match s with
  | EmptyString => None
  | _ => Some s
  end.

(** ** Queries shared by the revisions *)

Definition created_asc (x y : Batch) : bool :=
  String.leb (b_created_at x) (b_created_at y).

Definition created_desc (x y : Batch) : bool :=
  String.leb (b_created_at y) (b_created_at x).

Definition sib_id_asc (x y : SaleItemBatch) : bool := sib_id x <=? sib_id y.

(** [WHERE product_id=? AND quantity>0] *)
Definition in_stock_of (pid : Z) (b : Batch) : bool :=
  (b_product_id b =? pid) && (b_quantity b >? 0).

(** [SELECT id, quantity FROM batches WHERE product_id=? AND quantity>0
     ORDER BY created_at ASC;] with the whole rows kept. *)
Definition fifo_batches (E : Engine) (db : DB) (pid : Z) : list Batch :=
  order_by E created_asc (filter (in_stock_of pid) (batches db)).

Definition fifo_rows (E : Engine) (db : DB) (pid : Z) : list (Z * Z) :=
  map (fun b => (b_id b, b_quantity b)) (fifo_batches E db pid).

(** [SELECT COALESCE(SUM(quantity),0) AS s FROM batches WHERE product_id=?;] *)
Definition total_stock (db : DB) (pid : Z) : Z :=
  fold_right Z.add 0
    (map b_quantity (filter (fun b => b_product_id b =? pid) (batches db))).

(** [SELECT * FROM products WHERE id=?;] and [... WHERE name=? LIMIT 1;] *)
Definition product_by_id (db : DB) (id : Z) : option Product :=
  find (fun p => p_id p =? id) (products db).

Definition product_by_name (db : DB) (name : string) : option Product :=
  find (fun p => String.eqb (p_name p) name) (products db).

(** The loop over the fetched rows that every revision of the sale path
    runs: [b] is the row as fetched, the update is sent to the live table.
    It returns the store and what is left of the request, or the exception
    that left the loop; the update that preceded a refused INSERT stays
    committed. *)
Fixpoint fifo_loop (rows : list (Z * Z)) (remain sale_item_id : Z) (db : DB)
    : DB * (Z + Exn) :=
  match rows with
  | [] => (db, inl remain)
  | (bid, bq) :: rest =>
      if remain <=? 0 then (db, inl remain)
      else
        let take := Z.min remain bq in
        let db1 := update_batch_sub db take bid in
        match insert_sale_item_batch db1 sale_item_id bid take with
        | inl (db2, _) => fifo_loop rest (remain - take) sale_item_id db2
        | inr e => (db1, inr e)
        end
  end.

(** ** mainproject.py *)

Module Main.

(** [NewSaleTab.add_to_cart], for a search text without blanks around
    it. *)
Definition add_to_cart (db : DB) (cart : list CartLine) (term : string) (qty : Z)
    : list CartLine * list Msg :=
  let prod :=
    match (if isdigit term then product_by_id db (int_of term) else None) with
    | Some p => Some p
    | None => product_by_name db term
    end in
  match prod with
  | None => (cart, [Warn_NotFound])
  | Some p =>
      if qty <=? 0 then (cart, [Warn_InvalidQty])
      else (cart ++ [mkCartLine (p_id p) (p_name p) qty (p_sale_price p)
                                (p_sale_price p * qty)], [])
  end.

(** [NewSaleTab._fifo_deduct_with_batch_tracking]: the warnings shown, or
    the exception that left the function. *)
Definition _fifo_deduct_with_batch_tracking (E : Engine) (db : DB)
    (product_id qty_needed sale_item_id : Z) (pname : string) : DB * (list Msg + Exn) :=
  let batches := fifo_rows E db product_id in
  match fifo_loop batches qty_needed sale_item_id db with
  | (db', inl remain) =>
      (db', inl (if remain >? 0 then [Warn_Stock pname remain] else []))
  | (db', inr e) => (db', inr e)
  end.

(** The [for i in self.cart] loop of [checkout]: the store, the warnings
    shown and the exception that ended the loop, if any. *)
Fixpoint checkout_lines (E : Engine) (db : DB) (sid : Z) (cart : list CartLine)
    : DB * list Msg * option Exn :=
  match cart with
  | [] => (db, [], None)
  | i :: rest =>
      match execute_insert_sale_item db sid (c_id i) (c_qty i) (c_price i) with
      | inr e => (db, [], Some e)
      | inl (db1, sale_item_id) =>
          match _fifo_deduct_with_batch_tracking E db1 (c_id i) (c_qty i)
                  sale_item_id (c_name i) with
          | (db2, inr e) => (db2, [], Some e)
          | (db2, inl w) =>
              let '(db3, ws, e) := checkout_lines E db2 sid rest in
              (db3, w ++ ws, e)
          end
      end
  end.

(** [NewSaleTab.checkout].  The receipt is rendered after the last write
    and before the sale is reported; [receipt] says how that went. *)
Definition checkout (E : Engine) (db : DB) (user : Z) (now : string)
    (receipt : Receipt) (cart : list CartLine) : DB * list Msg * option Exn :=
  match cart with
  | [] => (db, [Warn_Empty], None)
  | _ =>
      let total := fold_right Z.add 0 (map c_subtotal cart) in
      let '(db1, sid) := insert_sale db user total now in
      match checkout_lines E db1 sid cart with
      | (db2, ws, Some e) => (db2, ws, Some e)
      | (db2, ws, None) =>
          match receipt with
          | ReceiptRaised => (db2, ws, Some ReceiptError)
          | ReceiptNotOpened => (db2, ws ++ [Err_Open; Info_SaleComplete sid], None)
          | ReceiptOpened => (db2, ws ++ [Info_SaleComplete sid], None)
          end
      end
  end.

(** [App._load_sale_for_return]: sale items of the sale joined with their
    product. *)
Definition _load_sale_for_return (db : DB) (sale_id : Z) : list TreeRow :=
  flat_map
    (fun si =>
       if si_sale_id si =? sale_id then
         map (fun p => mkTreeRow (si_id si) (p_name p) (si_quantity si)
                                 (si_price si) (p_id p))
             (filter (fun p => p_id p =? si_product_id si) (products db))
       else [])
    (sale_items db).

(** [SELECT sib.batch_id, sib.quantity FROM sale_item_batches sib
     WHERE sib.sale_item_id = ? ORDER BY sib.id ASC;] *)
Definition batches_of_item (E : Engine) (db : DB) (item_id : Z) : list (Z * Z) :=
  map (fun a => (sib_batch_id a, sib_quantity a))
      (order_by E sib_id_asc
         (filter (fun a => sib_sale_item_id a =? item_id) (sale_item_batches db))).

(** The give-back loop of [_process_return]. *)
Fixpoint give_back_loop (rows : list (Z * Z)) (remain : Z) (db : DB) : DB * Z :=
  match rows with
  | [] => (db, remain)
  | (bid, q) :: rest =>
      if remain <=? 0 then (db, remain)
      else
        let give_back := Z.min remain q in
        give_back_loop rest (remain - give_back) (update_batch_add db give_back bid)
  end.

(** [App._process_return]: [selected] is the selected row of the tree,
    if any. *)
Definition _process_return (E : Engine) (db : DB) (selected : option TreeRow)
    (return_qty : Z) (reason : string) : DB * list Msg :=
  match selected with
  | None => (db, [Err_SelectItem])
  | Some row =>
      if (return_qty <=? 0) || (return_qty >? t_qty row)
      then (db, [Err_InvalidReturnQuantity])
      else
        let db1 := fst (insert_return db (t_id row) return_qty reason) in
        let batches := batches_of_item E db1 (t_id row) in
        let db2 := fst (give_back_loop batches return_qty db1) in
        let db3 := update_sale_item_sub db2 return_qty (t_id row) in
        (db3, [Info_Returned return_qty (t_product row)])
  end.

(** The [save] callback of [App._add_batch]: the INSERT sits in a [try]
    whose [except] shows the error. *)
Definition _add_batch (db : DB) (d : BatchForm) (now : string) : DB * list Msg :=
  match product_by_name db (f_product d) with
  | None => (db, [Err_ProductRequired])
  | Some p =>
      if p_id p =? 0 then (db, [Err_ProductRequired])
      else if fits_int64 (f_quantity d) then
        (fst (insert_batch db (p_id p) (f_supplier d) (Some (f_batch_no d))
                (f_quantity d) (or_none (f_expiry d)) (f_cost_price d) now),
         [Info_BatchSaved])
      else (db, [Err_Exception OverflowError])
  end.

End Main.

(** ** 3.py *)

Module Rev3.

(** The [save] callback of [BatchesTab.add_item] (1.py has the same
    body).  Nothing catches what the INSERT raises: a quantity outside 64
    bits is refused by the binding, an unknown product name reaches the
    statement as NULL and violates [product_id INTEGER NOT NULL]. *)
Definition add_item (db : DB) (d : BatchForm) (now : string) : DB * list Msg :=
  match f_product d with
  | EmptyString => (db, [Err_ProductRequired])
  | _ =>
      let pid := option_map p_id (product_by_name db (f_product d)) in
      let qty := f_quantity d in
      if qty <=? 0 then (db, [Err_QuantityPositive])
      else if negb (fits_int64 qty) then (db, [Uncaught OverflowError])
      else
        match pid with
        | None => (db, [Err_Integrity])
        | Some pid =>
            (fst (insert_batch db pid (f_supplier d) (Some (f_batch_no d)) qty
                    (or_none (f_expiry d)) (f_cost_price d) now), [])
        end
  end.

(** [NewSaleTab.add_to_cart] *)
Definition add_to_cart (db : DB) (cart : list CartLine) (term : string) (qty : Z)
    : list CartLine * list Msg :=
  if qty <=? 0 then (cart, [Warn_InvalidQty])
  else
    let prod :=
      match (if isdigit term then product_by_id db (int_of term) else None) with
      | Some p => Some p
      | None => product_by_name db term
      end in
    match prod with
    | None => (cart, [Warn_NotFound])
    | Some p =>
        (cart ++ [mkCartLine (p_id p) (p_name p) qty (p_sale_price p)
                             (p_sale_price p * qty)], [])
    end.

(** The [for i in self.cart] loop of [NewSaleTab.checkout], with the
    deduction written in line. *)
Fixpoint checkout_lines (E : Engine) (db : DB) (sale_id : Z) (cart : list CartLine)
    : DB * list Msg * option Exn :=
  match cart with
  | [] => (db, [], None)
  | i :: rest =>
      match execute_insert_sale_item db sale_id (c_id i) (c_qty i) (c_price i) with
      | inr e => (db, [], Some e)
      | inl (db1, sale_item_id) =>
          let batches := fifo_rows E db1 (c_id i) in
          match fifo_loop batches (c_qty i) sale_item_id db1 with
          | (db2, inr e) => (db2, [], Some e)
          | (db2, inl qty_needed) =>
              let w := if qty_needed >? 0 then [Warn_Stock (c_name i) qty_needed] else [] in
              let '(db3, ws, e) := checkout_lines E db2 sale_id rest in
              (db3, w ++ ws, e)
          end
      end
  end.

(** [NewSaleTab.checkout].  [receipt] says whether rendering the receipt
    raised; the boxes of the receipt dialog itself (the question, a missing
    package) are not listed. *)
Definition checkout (E : Engine) (db : DB) (user : Z) (now : string)
    (receipt : Receipt) (cart : list CartLine) : DB * list Msg * option Exn :=
  match cart with
  | [] => (db, [Warn_Empty], None)
  | _ =>
      let total := fold_right Z.add 0 (map c_subtotal cart) in
      let '(db1, sale_id) := insert_sale db user total now in
      match checkout_lines E db1 sale_id cart with
      | (db2, ws, Some e) => (db2, ws, Some e)
      | (db2, ws, None) =>
          match receipt with
          | ReceiptRaised => (db2, ws, Some ReceiptError)
          | _ => (db2, ws ++ [Info_SaleComplete sale_id], None)
          end
      end
  end.

(** [ReturnTab.load_sale] *)
Definition load_sale (db : DB) (sid : Z) : list TreeRow :=
  Main._load_sale_for_return db sid.

(** [SELECT id FROM batches WHERE product_id=? ORDER BY created_at DESC
     LIMIT 1;] with the whole row kept. *)
Definition latest_batch (E : Engine) (db : DB) (product_id : Z) : option Batch :=
  hd_error (order_by E created_desc
              (filter (fun b => b_product_id b =? product_id) (batches db))).

(** [ReturnTab.process_return] *)
Definition process_return (E : Engine) (db : DB) (sel : option TreeRow)
    (qty : Z) (reason : string) (now : string) : DB * list Msg :=
  match sel with
  | None => (db, [Err_SelectItem])
  | Some vals =>
      let sale_item_id := t_id vals in
      let product_id := t_product_id vals in
      if qty <=? 0 then (db, [Warn_ReturnQtyPositive])
      else
        let db1 := fst (insert_return db sale_item_id qty reason) in
        match latest_batch E db1 product_id with
        | Some batch => (update_batch_add db1 qty (b_id batch), [Info_ReturnDone])
        | None =>
            (fst (insert_batch db1 product_id None (Some "RETURN"%string) qty None 0 now),
             [Info_ReturnDone])
        end
  end.

End Rev3.

(** ** 4.py *)

Module Rev4.

(** The stock check that opens [checkout]: one entry per cart line whose
    quantity exceeds the summed stock of its product. *)
Definition shortages (db : DB) (cart : list CartLine) : list (string * Z * Z) :=
  flat_map
    (fun it =>
       let total_stock := total_stock db (c_id it) in
       if total_stock <? c_qty it then [(c_name it, total_stock, c_qty it)] else [])
    cart.

(** The loop that creates the sale items and deducts the batches.  It
    runs after the stock check, for products that have batches and
    quantities that the stored stock covers. *)
Fixpoint checkout_lines (E : Engine) (db : DB) (sale_id : Z) (cart : list CartLine)
    : DB * option Exn :=
  match cart with
  | [] => (db, None)
  | it :: rest =>
      let '(db1, si) := insert_sale_item db sale_id (c_id it) (c_qty it) (c_price it) in
      let batches := fifo_rows E db1 (c_id it) in
      match fifo_loop batches (c_qty it) si db1 with
      | (db2, inl _) => checkout_lines E db2 sale_id rest
      | (db2, inr e) => (db2, Some e)
      end
  end.

(** The [checkout] closure of the sales tab.  The customers table it also
    writes is not part of the ledger. *)
Definition checkout (E : Engine) (db : DB) (user : Z) (now : string)
    (cart : list CartLine) : DB * list Msg :=
  match cart with
  | [] => (db, [Warn_Empty])
  | _ =>
      match shortages db cart with
      | (_ :: _) as l => (db, [Err_OutOfStock l])
      | [] =>
          let total := fold_right Z.add 0 (map c_subtotal cart) in
          let '(db1, sale_id) := insert_sale db user total now in
          match checkout_lines E db1 sale_id cart with
          | (db2, None) => (db2, [Info_SaleComplete sale_id])
          | (db2, Some e) => (db2, [Uncaught e])
          end
      end
  end.

End Rev4.

(** ** Operations on the ledger *)

(** What an operator can do to the ledger: fill the add-batch dialog, ring
    up a cart (each entry is what was typed in the search and quantity
    boxes) and check it out, or load a sale, select one of its rows and
    return part of it.  [now] is the clock at the time of the operation;
    a return stores it in 3.py only. *)
Inductive Op : Type :=
| Intake (d : BatchForm) (now : string)
| SaleOp (user : Z) (now : string) (entries : list (string * Z)) (receipt : Receipt)
| ReturnOp (sale_id : Z) (row : nat) (return_qty : Z) (reason : string) (now : string).

(** What the screen shows for a callback: its message boxes, then the
    exception that left it, if any. *)
Definition shown (r : DB * list Msg * option Exn) : DB * list Msg :=
  (fst (fst r), snd (fst r) ++ uncaught (snd r)).

(** The operations on the ledger of mainproject.py. *)
Module MainRun.

Definition fill_cart (db : DB) (entries : list (string * Z)) : list CartLine :=
  fold_left (fun cart e => fst (Main.add_to_cart db cart (fst e) (snd e)))
            entries [].

Definition step (E : Engine) (db : DB) (o : Op) : DB * list Msg :=
  match o with
  | Intake d now => Main._add_batch db d now
  | SaleOp user now entries receipt =>
      shown (Main.checkout E db user now receipt (fill_cart db entries))
  | ReturnOp sale_id row q reason _ =>
      Main._process_return E db
        (nth_error (Main._load_sale_for_return db sale_id) row) q reason
  end.

Definition run (E : Engine) (db : DB) (ops : list Op) : DB :=
  fold_left (fun db o => fst (step E db o)) ops db.

End MainRun.

(** The same operations on the ledger of 3.py. *)
Module Rev3Run.

Definition fill_cart (db : DB) (entries : list (string * Z)) : list CartLine :=
  fold_left (fun cart e => fst (Rev3.add_to_cart db cart (fst e) (snd e)))
            entries [].

Definition step (E : Engine) (db : DB) (o : Op) : DB * list Msg :=
  match o with
  | Intake d now => Rev3.add_item db d now
  | SaleOp user now entries receipt =>
      shown (Rev3.checkout E db user now receipt (fill_cart db entries))
  | ReturnOp sale_id row q reason now =>
      Rev3.process_return E db (nth_error (Rev3.load_sale db sale_id) row) q reason now
  end.

Definition run (E : Engine) (db : DB) (ops : list Op) : DB :=
  fold_left (fun db o => fst (step E db o)) ops db.

Fixpoint messages (E : Engine) (db : DB) (ops : list Op) : list Msg :=
  match ops with
  | [] => []
  | o :: rest => snd (step E db o) ++ messages E (fst (step E db o)) rest
  end.

End Rev3Run.

(** ** Quantities the claims speak of *)

(** On-hand stock of a product: the sum over its batches. *)
Definition on_hand (db : DB) (pid : Z) : Z := total_stock db pid.

Definition nonneg_batches (db : DB) : Prop :=
  Forall (fun b => 0 <= b_quantity b) (batches db).

Definition batch_quantity (db : DB) (bid : Z) : option Z :=
  option_map b_quantity (find (fun b => b_id b =? bid) (batches db)).

Definition allocations_of (db : DB) (item_id : Z) : list SaleItemBatch :=
  filter (fun a => sib_sale_item_id a =? item_id) (sale_item_batches db).

(** ** The plan a loop follows

    The deduction loop of the sale and the give-back loop of the return
    have one shape: stop when nothing remains, otherwise move
    [min(remain, row quantity)] and go on with the rest. *)
Fixpoint min_plan (rows : list (Z * Z)) (remain : Z) : list (Z * Z) :=
  match rows with
  | [] => []
  | (bid, q) :: rest =>
      if remain <=? 0 then []
      else (bid, Z.min remain q) :: min_plan rest (remain - Z.min remain q)
  end.

Definition total (plan : list (Z * Z)) : Z := fold_right Z.add 0 (map snd plan).

(** What a plan moves on the batch with a given id. *)
Definition delta_of (plan : list (Z * Z)) (bid : Z) : Z :=
  total (filter (fun p => fst p =? bid) plan).

(** The [sale_item_batches] rows a plan inserts, numbered after [sq]. *)
Fixpoint alloc_rows (sq sale_item_id : Z) (plan : list (Z * Z)) : list SaleItemBatch :=
  match plan with
  | [] => []
  | (bid, take) :: rest =>
      mkSaleItemBatch (sq + 1) sale_item_id bid take :: alloc_rows (sq + 1) sale_item_id rest
  end.

Definition deduct (plan : list (Z * Z)) (bs : list Batch) : list Batch :=
  map (fun b => with_quantity b (b_quantity b - delta_of plan (b_id b))) bs.

Definition restock (plan : list (Z * Z)) (bs : list Batch) : list Batch :=
  map (fun b => with_quantity b (b_quantity b + delta_of plan (b_id b))) bs.

(** The allocation algorithm in the words of the specification: walk the
    batches in the given order; for each, take [min(remaining, quantity)];
    stop when [remaining = 0] or the batches are exhausted. *)
Fixpoint spec_allocate (bs : list Batch) (remaining : Z) : list (Batch * Z) :=
  match bs with
  | [] => []
  | b :: rest =>
      if remaining =? 0 then []
      else
        let take := Z.min remaining (b_quantity b) in
        (b, take) :: spec_allocate rest (remaining - take)
  end.

(** The triple the specification calls an Allocation. *)
Definition allocation (a : SaleItemBatch) : Z * Z * Z :=
  (sib_sale_item_id a, sib_batch_id a, sib_quantity a).

(** Rows added to a table by an operation. *)
Definition added {A : Type} (before after : list A) : list A :=
  skipn (List.length before) after.

(** ** Properties of a store reached by the ledger's own operations *)

(** An allocation row refers to a sale item and to a batch of the item's
    product, and holds a positive quantity. *)
Definition alloc_ok (db : DB) (a : SaleItemBatch) : Prop :=
  0 < sib_quantity a /\
  exists si b,
    In si (sale_items db) /\ si_id si = sib_sale_item_id a /\
    In b (batches db) /\ b_id b = sib_batch_id a /\
    b_product_id b = si_product_id si.

Record well_formed (db : DB) : Prop := mkWF {
  wf_batch_ids : NoDup (map b_id (batches db));
  wf_batch_seq : Forall (fun b => b_id b <= seq_batches db) (batches db);
  wf_item_ids : NoDup (map si_id (sale_items db));
  wf_item_seq : Forall (fun i => si_id i <= seq_sale_items db) (sale_items db);
  wf_allocs : Forall (alloc_ok db) (sale_item_batches db)
}.

Definition sumZ {A : Type} (h : A -> Z) (l : list A) : Z :=
  fold_right Z.add 0 (map h l).

(** Units of a product recorded as sold: the quantities of its sale items
    as they stand, that is after the adjustments made by returns. *)
Definition sold (db : DB) (pid : Z) : Z :=
  sumZ si_quantity (filter (fun i => si_product_id i =? pid) (sale_items db)).


(** Units of a product an intake dialog was given: the quantity typed for
    the product the name resolves to. *)
Definition entered (db : DB) (d : BatchForm) (pid : Z) : Z :=
  match product_by_name db (f_product d) with
  | Some p => if p_id p =? pid then f_quantity d else 0
  | None => 0
  end.

(** Units of a product taken in by an operation of mainproject.py: what
    was typed, when the dialog reported the batch saved. *)
Definition intake_of (E : Engine) (db : DB) (o : Op) (pid : Z) : Z :=
  match o with
  | Intake d _ =>
      match snd (MainRun.step E db o) with
      | [Info_BatchSaved] => entered db d pid
      | _ => 0
      end
  | _ => 0
  end.


(** The messages shown during a run. *)
Fixpoint messages (E : Engine) (db : DB) (ops : list Op) : list Msg :=
  match ops with
  | [] => []
  | o :: rest => snd (MainRun.step E db o) ++ messages E (fst (MainRun.step E db o)) rest
  end.

Definition is_stock_warning (m : Msg) : bool :=
  match m with
  | Warn_Stock _ _ => true
  | _ => false
  end.

(** No line of any sale of the run was short. *)
Definition no_shortage (E : Engine) (db : DB) (ops : list Op) : Prop :=
  Forall (fun m => is_stock_warning m = false) (messages E db ops).

(** Every intake of the run was given a quantity that is not negative. *)
Definition intake_quantities_nonneg (ops : list Op) : Prop :=
  Forall (fun o => match o with Intake d _ => 0 <= f_quantity d | _ => True end) ops.





(** A cart line that the INSERT into [sale_items] accepts. *)
Definition line_ok (db : DB) (c : CartLine) : Prop :=
  product_exists db (c_id c) = true /\ fits_int64 (c_qty c) = true.

(** The [sale_items] rows a cart inserts, numbered after [sq]. *)
Fixpoint item_rows (sq sid : Z) (cart : list CartLine) : list SaleItem :=
  match cart with
  | [] => []
  | i :: rest =>
      mkSaleItem (sq + 1) sid (c_id i) (c_qty i) (c_price i) :: item_rows (sq + 1) sid rest
  end.

(** ** One line of a checkout *)

Definition line_plan (E : Engine) (db : DB) (i : CartLine) : list (Z * Z) :=
  min_plan (fifo_rows E db (c_id i)) (c_qty i).

(** The ledger after a line whose INSERT was accepted. *)
Definition line_db (E : Engine) (db : DB) (sid : Z) (i : CartLine) : DB :=
  mkDB (products db) (deduct (line_plan E db i) (batches db)) (sales db)
       (sale_items db
        ++ [mkSaleItem (seq_sale_items db + 1) sid (c_id i) (c_qty i) (c_price i)])
       (sale_item_batches db
        ++ alloc_rows (seq_sale_item_batches db) (seq_sale_items db + 1) (line_plan E db i))
       (returns db) (seq_batches db) (seq_sales db) (seq_sale_items db + 1)
       (seq_sale_item_batches db + Z.of_nat (List.length (line_plan E db i)))
       (seq_returns db).

Definition line_msgs (E : Engine) (db : DB) (i : CartLine) : list Msg :=
  if c_qty i - total (line_plan E db i) >? 0
  then [Warn_Stock (c_name i) (c_qty i - total (line_plan E db i))] else [].

Definition items_covered (db : DB) : Prop :=
  Forall (fun si => si_quantity si <= sumZ sib_quantity (allocations_of db (si_id si)))
         (sale_items db).

Definition balance (db : DB) (pid : Z) : Z := on_hand db pid + sold db pid.

Definition return_plan (E : Engine) (db : DB) (item_id r : Z) : list (Z * Z) :=
  min_plan (Main.batches_of_item E db item_id) r.

Definition adjust_item (r iid : Z) (i : SaleItem) : SaleItem :=
  if si_id i =? iid then with_si_quantity i (si_quantity i - r) else i.

Definition items_nonneg (db : DB) : Prop :=
  Forall (fun i => 0 <= si_quantity i) (sale_items db).

(** mainproject.py, [App._delete_batch]: [sel] is the id shown in the
    selected row of the batch tree, [confirmed] the answer to the
    confirmation box.  [sale_item_batches.batch_id] is declared
    [REFERENCES batches(id) ON DELETE CASCADE] and every connection turns
    foreign keys on, so the allocation rows of the batch go with it. *)
Definition _delete_batch (db : DB) (sel : option Z) (confirmed : bool) : DB :=
  match sel with
  | None => db
  | Some bid =>
      if confirmed then
        mkDB (products db)
             (filter (fun b => negb (b_id b =? bid)) (batches db))
             (sales db) (sale_items db)
             (filter (fun a => negb (sib_batch_id a =? bid)) (sale_item_batches db))
             (returns db) (seq_batches db) (seq_sales db) (seq_sale_items db)
             (seq_sale_item_batches db) (seq_returns db)
      else db
  end.

(** ** Example ledger

    One product; lot A of 5 received on day 1, lot B of 10 received on
    day 2, then a sale of 7. *)
Definition example_products : list Product := [mkProduct 1 "P" 100].

Definition example_form (q : Z) : BatchForm := mkBatchForm "P" None "L" q "" 0.

Definition example_stocked : DB :=
  MainRun.run rowid_engine (empty_ledger example_products)
    [Intake (example_form 5) "2024-01-01 09:00:00";
     Intake (example_form 10) "2024-01-02 09:00:00"].

Definition example_sold : DB :=
  MainRun.run rowid_engine example_stocked
    [SaleOp 1 "2024-01-03 09:00:00" [("P"%string, 7)] ReceiptOpened].

(** After the sale of 7, a sale of 20 that only finds 8 on hand. *)
Definition example_short : DB :=
  MainRun.run rowid_engine example_sold
    [SaleOp 1 "2024-01-03 10:00:00" [("P"%string, 20)] ReceiptOpened].


(** A ledger with two products: 10 units of P and 2 units of Q. *)
Definition two_products : list Product := [mkProduct 1 "P" 100; mkProduct 2 "Q" 250].

Definition example_two : DB :=
  MainRun.run rowid_engine (empty_ledger two_products)
    [Intake (mkBatchForm "P" None "L1" 10 "" 0) "2024-01-01 09:00:00";
     Intake (mkBatchForm "Q" None "L2" 2 "" 0) "2024-01-01 10:00:00"].

(** The ledger as the deduction of a line finds it: the header of the
    sale and the sale item of the line have been written. *)
Definition line_opened (db : DB) (user : Z) (now : string) (pid q price : Z) : DB :=
  let '(db1, sid) := insert_sale db user (price * q) now in
  fst (insert_sale_item db1 sid pid q price).

(** The sale of 7, and after it the sale of 20, at that point. *)
Definition example_line : DB :=
  line_opened example_stocked 1 "2024-01-03 09:00:00" 1 7 100.




(** ** Helper lemmas *)

Lemma with_quantity_same b : with_quantity b (b_quantity b) = b.
Proof. now destruct b. Qed.

Lemma total_app p q : total (p ++ q) = total p + total q.
Proof.
  unfold total. rewrite map_app.
  induction (map snd p) as [|x l IH]; simpl; lia.
Qed.

Lemma delta_of_nil bid : delta_of [] bid = 0.
Proof. reflexivity. Qed.

Lemma delta_of_cons b t plan bid :
  delta_of ((b, t) :: plan) bid = (if b =? bid then t else 0) + delta_of plan bid.
Proof.
  unfold delta_of, total. simpl. destruct (b =? bid); simpl; lia.
Qed.

Lemma deduct_nil bs : deduct [] bs = bs.
Proof.
  unfold deduct. rewrite <- (map_id bs) at 2. apply map_ext. intros b.
  rewrite delta_of_nil, Z.sub_0_r. apply with_quantity_same.
Qed.

Lemma restock_nil bs : restock [] bs = bs.
Proof.
  unfold restock. rewrite <- (map_id bs) at 2. apply map_ext. intros b.
  rewrite delta_of_nil, Z.add_0_r. apply with_quantity_same.
Qed.

Lemma deduct_cons bid t plan bs :
  deduct plan
    (map (fun b => if b_id b =? bid then with_quantity b (b_quantity b - t) else b) bs)
  = deduct ((bid, t) :: plan) bs.
Proof.
  unfold deduct. rewrite map_map. apply map_ext. intros b.
  rewrite delta_of_cons. destruct (b_id b =? bid) eqn:Hb.
  - unfold with_quantity; simpl. rewrite Z.eqb_sym, Hb. f_equal. lia.
  - rewrite Z.eqb_sym, Hb. f_equal.
Qed.

Lemma restock_cons bid t plan bs :
  restock plan
    (map (fun b => if b_id b =? bid then with_quantity b (b_quantity b + t) else b) bs)
  = restock ((bid, t) :: plan) bs.
Proof.
  unfold restock. rewrite map_map. apply map_ext. intros b.
  rewrite delta_of_cons. destruct (b_id b =? bid) eqn:Hb.
  - unfold with_quantity; simpl. rewrite Z.eqb_sym, Hb. f_equal. lia.
  - rewrite Z.eqb_sym, Hb. f_equal.
Qed.

Lemma batch_exists_update_sub db take bid x :
  batch_exists (update_batch_sub db take bid) x = batch_exists db x.
Proof.
  unfold batch_exists, update_batch_sub. simpl.
  induction (batches db) as [|b bs IH]; simpl; [reflexivity|].
  rewrite IH. now destruct (b_id b =? bid).
Qed.

(** With the sale item in the ledger and rows that are batches of the
    ledger, no INSERT of the deduction loop is refused: the loop computes
    its plan, applies it to the batches and appends one allocation row per
    step; nothing else is written. *)
Lemma fifo_loop_eq rows : forall remain sid db,
  item_exists db sid = true ->
  Forall (fun r => batch_exists db (fst r) = true) rows ->
  fifo_loop rows remain sid db =
  (let plan := min_plan rows remain in
   mkDB (products db) (deduct plan (batches db)) (sales db) (sale_items db)
        (sale_item_batches db ++ alloc_rows (seq_sale_item_batches db) sid plan)
        (returns db) (seq_batches db) (seq_sales db) (seq_sale_items db)
        (seq_sale_item_batches db + Z.of_nat (List.length plan)) (seq_returns db),
   inl (remain - total (min_plan rows remain))).
Proof.
  induction rows as [|[bid bq] rows IH]; intros remain sid db Hi Hb; simpl.
  - rewrite deduct_nil, app_nil_r. unfold total; simpl.
    rewrite Z.add_0_r, Z.sub_0_r. now destruct db.
  - destruct (remain <=? 0) eqn:Hr; simpl.
    + rewrite deduct_nil, app_nil_r. unfold total; simpl.
      rewrite Z.add_0_r, Z.sub_0_r. now destruct db.
    + inversion Hb as [|? ? Hbid Hrest]; subst. simpl in Hbid.
      unfold insert_sale_item_batch.
      change (item_exists (update_batch_sub db (Z.min remain bq) bid) sid)
        with (item_exists db sid).
      rewrite Hi, batch_exists_update_sub, Hbid. cbn [andb].
      rewrite IH.
      * simpl. rewrite deduct_cons, <- app_assoc. simpl.
        f_equal; [f_equal; lia|]. f_equal. unfold total; simpl. lia.
      * exact Hi.
      * eapply Forall_impl; [|exact Hrest]. intros r Hr'.
        change (batch_exists (set_sale_item_batches
                  (update_batch_sub db (Z.min remain bq) bid) _ _) (fst r))
          with (batch_exists (update_batch_sub db (Z.min remain bq) bid) (fst r)).
        now rewrite batch_exists_update_sub.
Qed.

(** Without the sale item the first INSERT is refused; the update before
    it has been committed. *)
Lemma fifo_loop_missing_item rows remain sid db :
  item_exists db sid = false ->
  fifo_loop rows remain sid db =
  match rows with
  | [] => (db, inl remain)
  | (bid, bq) :: _ =>
      if remain <=? 0 then (db, inl remain)
      else (update_batch_sub db (Z.min remain bq) bid, inr IntegrityError)
  end.
Proof.
  intros Hi. destruct rows as [|[bid bq] rows]; simpl; [reflexivity|].
  destruct (remain <=? 0); [reflexivity|].
  unfold insert_sale_item_batch.
  change (item_exists (update_batch_sub db (Z.min remain bq) bid) sid)
    with (item_exists db sid).
  now rewrite Hi.
Qed.

Lemma give_back_loop_eq rows : forall remain db,
  Main.give_back_loop rows remain db =
  (set_batches db (restock (min_plan rows remain) (batches db)) (seq_batches db),
   remain - total (min_plan rows remain)).
Proof.
  induction rows as [|[bid q] rows IH]; intros remain db; simpl.
  - rewrite restock_nil. unfold total; simpl. rewrite Z.sub_0_r. now destruct db.
  - destruct (remain <=? 0) eqn:Hr; simpl.
    + rewrite restock_nil. unfold total; simpl. rewrite Z.sub_0_r. now destruct db.
    + rewrite IH. unfold update_batch_add, set_batches; simpl.
      rewrite restock_cons. f_equal. unfold total; simpl. lia.
Qed.

Lemma added_app {A} (old new : list A) : added old (old ++ new) = new.
Proof. unfold added. induction old; simpl; auto. Qed.

Lemma allocation_alloc_rows sid plan : forall sq,
  map allocation (alloc_rows sq sid plan) = map (fun p => (sid, fst p, snd p)) plan.
Proof.
  induction plan as [|[bid t] plan IH]; intros sq; simpl; [reflexivity|].
  now rewrite IH.
Qed.

Lemma created_asc_total x y : created_asc x y = true \/ created_asc y x = true.
Proof. apply String.leb_total. Qed.


Lemma fifo_batches_perm E db pid :
  Permutation (filter (in_stock_of pid) (batches db)) (fifo_batches E db pid).
Proof. apply order_by_perm. Qed.

Lemma fifo_batches_in_stock E db pid :
  Forall (fun b => b_product_id b = pid /\ 0 < b_quantity b) (fifo_batches E db pid).
Proof.
  apply Forall_forall. intros b Hb.
  apply (Permutation_in _ (Permutation_sym (fifo_batches_perm E db pid))) in Hb.
  apply filter_In in Hb. destruct Hb as [_ Hb]. unfold in_stock_of in Hb.
  apply andb_true_iff in Hb. destruct Hb as [H1 H2].
  split; [now apply Z.eqb_eq | now apply Z.gtb_lt in H2].
Qed.

(** On rows with positive quantities and a request that is not negative,
    the loop's test [remain <= 0] is the specification's [remaining = 0]. *)
Lemma min_plan_spec_allocate bs :
  Forall (fun b => 0 < b_quantity b) bs ->
  forall r, 0 <= r ->
  min_plan (map (fun b => (b_id b, b_quantity b)) bs) r
  = map (fun p => (b_id (fst p), snd p)) (spec_allocate bs r).
Proof.
  induction 1 as [|b bs Hb Hbs IH]; intros r Hr; simpl; [reflexivity|].
  destruct (r =? 0) eqn:H0.
  - apply Z.eqb_eq in H0. subst. reflexivity.
  - apply Z.eqb_neq in H0.
    destruct (r <=? 0) eqn:Hle; [apply Z.leb_le in Hle; lia|].
    simpl. f_equal. apply IH. lia.
Qed.

Lemma spec_allocate_stop bs :
  Forall (fun b => 0 < b_quantity b) bs ->
  forall r, 0 <= r ->
  let rest := r - fold_right Z.add 0 (map snd (spec_allocate bs r)) in
  0 <= rest /\ (rest = 0 \/ List.length (spec_allocate bs r) = List.length bs).
Proof.
  induction 1 as [|b bs Hb Hbs IH]; intros r Hr; simpl.
  - split; [lia | now right].
  - destruct (r =? 0) eqn:H0; simpl.
    + apply Z.eqb_eq in H0. subst. split; [lia | now left].
    + destruct (IH (r - Z.min r (b_quantity b))) as [H1 H2]; [lia|].
      split; [lia|]. destruct H2 as [H2|H2]; [left; lia | right; now f_equal].
Qed.

Lemma fifo_rows_exist E db pid :
  Forall (fun r => batch_exists db (fst r) = true) (fifo_rows E db pid).
Proof.
  unfold fifo_rows. rewrite Forall_map. apply Forall_forall. intros b Hb. simpl.
  apply (Permutation_in _ (Permutation_sym (fifo_batches_perm E db pid))) in Hb.
  apply filter_In in Hb. destruct Hb as [Hb _].
  unfold batch_exists. apply existsb_exists. exists b. split; [exact Hb | apply Z.eqb_refl].
Qed.

Lemma fifo_result E db pid qty sid pname :
  item_exists db sid = true ->
  Main._fifo_deduct_with_batch_tracking E db pid qty sid pname =
  (let plan := min_plan (fifo_rows E db pid) qty in
   mkDB (products db) (deduct plan (batches db)) (sales db) (sale_items db)
        (sale_item_batches db ++ alloc_rows (seq_sale_item_batches db) sid plan)
        (returns db) (seq_batches db) (seq_sales db) (seq_sale_items db)
        (seq_sale_item_batches db + Z.of_nat (List.length plan)) (seq_returns db),
   inl (if qty - total (min_plan (fifo_rows E db pid) qty) >? 0
        then [Warn_Stock pname (qty - total (min_plan (fifo_rows E db pid) qty))]
        else [])).
Proof.
  intros Hi. unfold Main._fifo_deduct_with_batch_tracking.
  rewrite (@fifo_loop_eq (fifo_rows E db pid) qty sid db Hi (fifo_rows_exist E db pid)).
  reflexivity.
Qed.


(** ** Orders, plans and sums *)






(** A plan over rows that are not negative moves [min(request, sum of the
    rows)] in all, and from each row it visits at most what the row holds. *)
Lemma min_plan_total rows :
  Forall (fun p => 0 <= snd p) rows ->
  forall r, 0 <= r -> total (min_plan rows r) = Z.min r (total rows).
Proof.
  unfold total.
  induction 1 as [|[bid q] rows Hq Hrows IH]; intros r Hr; simpl in *.
  - lia.
  - assert (0 <= fold_right Z.add 0 (map snd rows)).
    { clear - Hrows. induction Hrows; simpl; lia. }
    destruct (r <=? 0) eqn:Hle; simpl.
    + apply Z.leb_le in Hle. lia.
    + rewrite IH by lia. lia.
Qed.

Lemma min_plan_bounded {A : Type} (f : A -> Z * Z) (l : list A) :
  Forall (fun a => 0 <= snd (f a)) l ->
  forall r, 0 <= r ->
  Forall2 (fun p a => fst p = fst (f a) /\ 0 <= snd p <= snd (f a))
          (min_plan (map f l) r) (firstn (List.length (min_plan (map f l) r)) l).
Proof.
  induction 1 as [|a l Hq Hl IH]; intros r Hr; simpl in *.
  - constructor.
  - destruct (f a) as [bid q] eqn:Hf. simpl in *.
    destruct (r <=? 0) eqn:Hle; simpl; [constructor|].
    apply Z.leb_gt in Hle.
    constructor; [rewrite Hf; simpl; split; [reflexivity | lia]|].
    apply IH. lia.
Qed.

Lemma load_sale_row db sid row :
  In row (Main._load_sale_for_return db sid) ->
  exists si, In si (sale_items db) /\ si_sale_id si = sid /\ si_id si = t_id row
             /\ si_product_id si = t_product_id row /\ si_quantity si = t_qty row.
Proof.
  unfold Main._load_sale_for_return. intros H.
  apply in_flat_map in H. destruct H as (si & Hsi & H).
  destruct (si_sale_id si =? sid) eqn:Hs; [|destruct H].
  apply in_map_iff in H. destruct H as (p & <- & Hp).
  apply filter_In in Hp. destruct Hp as [_ Hp]. apply Z.eqb_eq in Hp, Hs.
  exists si. simpl. auto.
Qed.


(** A stable sort by received date keeps rows with the same date in the
    order of the table. *)
Lemma insert_stable_same_date a l k :
  filter (fun b => String.eqb (b_created_at b) k) (insert_stable created_asc a l)
  = filter (fun b => String.eqb (b_created_at b) k) (a :: l).
Proof.
  induction l as [|b l IH]; [reflexivity|].
  cbn [insert_stable]. destruct (created_asc a b) eqn:Hab; [reflexivity|].
  assert (Hne : b_created_at a <> b_created_at b).
  { intros Heq. unfold created_asc in Hab. rewrite Heq in Hab.
    destruct (String.leb_total (b_created_at b) (b_created_at b)); congruence. }
  cbn [filter] in *. rewrite IH.
  destruct (String.eqb_spec (b_created_at a) k) as [Ha|Ha];
    destruct (String.eqb_spec (b_created_at b) k) as [Hb|Hb];
    try reflexivity; congruence.
Qed.

Lemma sort_stable_same_date l k :
  filter (fun b => String.eqb (b_created_at b) k) (sort_stable created_asc l)
  = filter (fun b => String.eqb (b_created_at b) k) l.
Proof.
  induction l as [|a l IH]; [reflexivity|].
  cbn [sort_stable fold_right]. fold (sort_stable created_asc l).
  rewrite insert_stable_same_date. cbn [filter]. now rewrite IH.
Qed.

Lemma sumZ_app {A} (h : A -> Z) l1 l2 : sumZ h (l1 ++ l2) = sumZ h l1 + sumZ h l2.
Proof. unfold sumZ. rewrite map_app. induction (map h l1); simpl; lia. Qed.

Lemma sumZ_add {A} (h g : A -> Z) l :
  sumZ (fun x => h x + g x) l = sumZ h l + sumZ g l.
Proof. unfold sumZ. induction l; simpl; lia. Qed.

Lemma sumZ_sub {A} (h g : A -> Z) l :
  sumZ (fun x => h x - g x) l = sumZ h l - sumZ g l.
Proof. unfold sumZ. induction l; simpl; lia. Qed.

Lemma sumZ_zero {A} (h : A -> Z) l :
  (forall x, In x l -> h x = 0) -> sumZ h l = 0.
Proof.
  unfold sumZ. induction l as [|a l IH]; simpl; intros H; [reflexivity|].
  rewrite (H a) by now left. rewrite IH; [reflexivity|]. intros x Hx. apply H. now right.
Qed.

Lemma sumZ_map {A B} (f : A -> B) (h : B -> Z) l : sumZ h (map f l) = sumZ (fun x => h (f x)) l.
Proof. unfold sumZ. now rewrite map_map. Qed.

Lemma filter_map_commute {A} (f : A -> bool) (g : A -> A) l :
  (forall x, f (g x) = f x) -> filter f (map g l) = map g (filter f l).
Proof.
  intros H. induction l as [|a l IH]; simpl; [reflexivity|].
  rewrite H. destruct (f a); simpl; now rewrite IH.
Qed.

(** With unique ids, a quantity keyed by the id of a batch of the table is
    counted once, and only among the rows that pass the filter. *)
Lemma sumZ_single {A : Type} (key : A -> Z) (l : list A) (f : A -> bool) (h : A -> Z) b :
  NoDup (map key l) -> In b l ->
  sumZ (fun x => if key b =? key x then h x else 0) (filter f l)
  = if f b then h b else 0.
Proof.
  induction l as [|a l IH]; intros Hnd Hin; [destruct Hin|].
  simpl in Hnd. inversion Hnd as [|? ? Hnotin Hnd']; subst.
  destruct Hin as [->|Hin].
  - simpl. assert (Hz : sumZ (fun x => if key b =? key x then h x else 0) (filter f l) = 0).
    { apply sumZ_zero. intros x Hx. apply filter_In in Hx. destruct Hx as [Hx _].
      destruct (Z.eqb_spec (key b) (key x)) as [He|]; [|reflexivity].
      exfalso. apply Hnotin. rewrite He. now apply in_map. }
    destruct (f b); [|exact Hz].
    unfold sumZ in *. simpl. rewrite Z.eqb_refl, Hz. lia.
  - specialize (IH Hnd' Hin).
    assert (Hne : key b <> key a).
    { intros He. apply Hnotin. rewrite <- He. now apply in_map. }
    simpl. destruct (f a); [|exact IH].
    unfold sumZ in *. simpl. apply Z.eqb_neq in Hne. rewrite Hne, IH. lia.
Qed.

Lemma NoDup_key_inj {A : Type} (key : A -> Z) (l : list A) x y :
  NoDup (map key l) -> In x l -> In y l -> key x = key y -> x = y.
Proof.
  induction l as [|a l IH]; intros Hnd Hx Hy He; [destruct Hx|].
  simpl in Hnd. inversion Hnd as [|? ? Hnotin Hnd']; subst.
  destruct Hx as [->|Hx]; destruct Hy as [->|Hy]; auto.
  - exfalso. apply Hnotin. rewrite He. now apply in_map.
  - exfalso. apply Hnotin. rewrite <- He. now apply in_map.
Qed.

(** A plan whose ids are batches of one product moves its total on that
    product and nothing on any other. *)
Lemma sumZ_delta_of (bs : list Batch) (pid pid' : Z) plan :
  NoDup (map b_id bs) ->
  Forall (fun p => exists b, In b bs /\ b_id b = fst p /\ b_product_id b = pid) plan ->
  sumZ (fun b => delta_of plan (b_id b)) (filter (fun b => b_product_id b =? pid') bs)
  = if pid =? pid' then total plan else 0.
Proof.
  intros Hnd. induction 1 as [|[bid t] plan (b & Hin & Hid & Hpid) Hplan IH].
  - rewrite sumZ_zero by reflexivity. unfold total. simpl. now destruct (pid =? pid').
  - simpl in Hid. subst bid.
    assert (Heq : forall l, sumZ (fun x => delta_of ((b_id b, t) :: plan) (b_id x)) l
                  = sumZ (fun x => (if b_id b =? b_id x then t else 0)
                                   + delta_of plan (b_id x)) l).
    { intros l. unfold sumZ. f_equal. apply map_ext. intros x. apply delta_of_cons. }
    rewrite Heq, sumZ_add, IH, (@sumZ_single _ b_id bs _ (fun _ => t) b Hnd Hin), Hpid.
    unfold total. simpl. destruct (pid =? pid'); lia.
Qed.

Lemma stock_after_deduct bs pid pid' plan :
  NoDup (map b_id bs) ->
  Forall (fun p => exists b, In b bs /\ b_id b = fst p /\ b_product_id b = pid) plan ->
  sumZ b_quantity (filter (fun b => b_product_id b =? pid') (deduct plan bs))
  = sumZ b_quantity (filter (fun b => b_product_id b =? pid') bs)
    - (if pid =? pid' then total plan else 0).
Proof.
  intros Hnd Hplan.
  unfold deduct. rewrite filter_map_commute by reflexivity.
  rewrite sumZ_map. simpl. rewrite sumZ_sub.
  now rewrite (@sumZ_delta_of bs pid pid' plan Hnd Hplan).
Qed.

Lemma stock_after_restock bs pid pid' plan :
  NoDup (map b_id bs) ->
  Forall (fun p => exists b, In b bs /\ b_id b = fst p /\ b_product_id b = pid) plan ->
  sumZ b_quantity (filter (fun b => b_product_id b =? pid') (restock plan bs))
  = sumZ b_quantity (filter (fun b => b_product_id b =? pid') bs)
    + (if pid =? pid' then total plan else 0).
Proof.
  intros Hnd Hplan.
  unfold restock. rewrite filter_map_commute by reflexivity.
  rewrite sumZ_map. simpl. rewrite sumZ_add.
  now rewrite (@sumZ_delta_of bs pid pid' plan Hnd Hplan).
Qed.

Lemma sumZ_perm {A} (h : A -> Z) l l' : Permutation l l' -> sumZ h l = sumZ h l'.
Proof. unfold sumZ. induction 1; simpl; lia. Qed.

Lemma sumZ_nonneg {A} (h : A -> Z) l : Forall (fun x => 0 <= h x) l -> 0 <= sumZ h l.
Proof. unfold sumZ. induction 1; simpl; lia. Qed.

Lemma delta_of_nonneg plan id : Forall (fun p => 0 <= snd p) plan -> 0 <= delta_of plan id.
Proof.
  induction 1 as [|[bid t] plan Ht Hplan IH]; [unfold delta_of, total; simpl; lia|].
  rewrite delta_of_cons. simpl in Ht. destruct (bid =? id); lia.
Qed.

(** A plan moves on a batch at most what the rows offer for it. *)
Lemma delta_of_min_plan_le rows id :
  Forall (fun p => 0 <= snd p) rows ->
  forall r, delta_of (min_plan rows r) id <= delta_of rows id.
Proof.
  induction 1 as [|[bid q] rows Hq Hrows IH]; intros r; simpl; [lia|].
  simpl in Hq. destruct (Z.leb_spec r 0).
  - rewrite delta_of_nil. apply delta_of_nonneg. now constructor.
  - rewrite !delta_of_cons. specialize (IH (r - Z.min r q)). destruct (bid =? id); lia.
Qed.

Lemma delta_of_rows bs id :
  delta_of (map (fun b => (b_id b, b_quantity b)) bs) id
  = sumZ (fun x => if b_id x =? id then b_quantity x else 0) bs.
Proof.
  induction bs as [|a bs IH]; [reflexivity|].
  simpl. rewrite delta_of_cons, IH. unfold sumZ. simpl. reflexivity.
Qed.

(** The steps of a plan over positive rows are positive, and carry ids of
    the rows. *)
Lemma min_plan_entries rows :
  Forall (fun p => 0 < snd p) rows ->
  forall r, Forall (fun p => 0 < snd p /\ In (fst p) (map fst rows)) (min_plan rows r).
Proof.
  induction 1 as [|[bid q] rows Hq Hrows IH]; intros r; simpl; [constructor|].
  simpl in Hq. destruct (Z.leb_spec r 0); [constructor|].
  constructor; [simpl; split; [lia | now left]|].
  eapply Forall_impl; [|apply IH]. simpl. intros p [H1 H2]. auto.
Qed.

(** Every line that reaches the cart has a positive quantity. *)
Lemma fill_cart_positive db entries :
  Forall (fun c => 0 < c_qty c) (MainRun.fill_cart db entries).
Proof.
  unfold MainRun.fill_cart.
  assert (H : forall cart, Forall (fun c => 0 < c_qty c) cart ->
    Forall (fun c => 0 < c_qty c)
      (fold_left (fun cart e => fst (Main.add_to_cart db cart (fst e) (snd e))) entries cart)).
  { induction entries as [|[term q] entries IH]; intros cart Hc; simpl; [assumption|].
    apply IH. unfold Main.add_to_cart.
    destruct (match (if isdigit term then product_by_id db (int_of term) else None) with
              | Some p => Some p | None => product_by_name db term end) as [p|];
      [|assumption].
    destruct (Z.leb_spec q 0); [assumption|]. simpl.
    apply Forall_app. split; [assumption|]. constructor; [simpl; lia | constructor]. }
  apply H. constructor.
Qed.

Lemma map_b_id_deduct plan bs : map b_id (deduct plan bs) = map b_id bs.
Proof. unfold deduct. rewrite map_map. reflexivity. Qed.

Lemma map_b_id_restock plan bs : map b_id (restock plan bs) = map b_id bs.
Proof. unfold restock. rewrite map_map. reflexivity. Qed.

(** An allocation row stays valid when the tables keep the ids and
    products of their rows. *)
Lemma alloc_ok_mono db db' a :
  (forall si, In si (sale_items db) ->
     exists si', In si' (sale_items db') /\ si_id si' = si_id si
                 /\ si_product_id si' = si_product_id si) ->
  (forall b, In b (batches db) ->
     exists b', In b' (batches db') /\ b_id b' = b_id b
                /\ b_product_id b' = b_product_id b) ->
  alloc_ok db a -> alloc_ok db' a.
Proof.
  intros Hi Hb (Hq & si & b & H1 & H2 & H3 & H4 & H5).
  destruct (Hi si H1) as (si' & Hs1 & Hs2 & Hs3).
  destruct (Hb b H3) as (b' & Hb1 & Hb2 & Hb3).
  split; [assumption|]. exists si', b'. repeat split; congruence.
Qed.

Lemma in_deduct plan bs b :
  In b bs -> exists b', In b' (deduct plan bs) /\ b_id b' = b_id b
                        /\ b_product_id b' = b_product_id b.
Proof.
  intros H. eexists. split; [unfold deduct; apply in_map; exact H|]. split; reflexivity.
Qed.

Lemma in_restock plan bs b :
  In b bs -> exists b', In b' (restock plan bs) /\ b_id b' = b_id b
                        /\ b_product_id b' = b_product_id b.
Proof.
  intros H. eexists. split; [unfold restock; apply in_map; exact H|]. split; reflexivity.
Qed.

Lemma alloc_rows_in sq sid plan a :
  In a (alloc_rows sq sid plan) ->
  sib_sale_item_id a = sid /\ In (sib_batch_id a, sib_quantity a) plan.
Proof.
  revert sq. induction plan as [|[bid t] plan IH]; intros sq H; [destruct H|].
  simpl in H. destruct H as [<-|H]; [simpl; auto|].
  destruct (IH _ H). split; [assumption | now right].
Qed.

Lemma sumZ_alloc_rows sq sid plan :
  sumZ sib_quantity (filter (fun a => sib_sale_item_id a =? sid) (alloc_rows sq sid plan))
  = total plan.
Proof.
  revert sq. induction plan as [|[bid t] plan IH]; intros sq; [reflexivity|].
  simpl. rewrite Z.eqb_refl. unfold sumZ, total in *. simpl. now rewrite IH.
Qed.

Lemma allocations_of_app db l id :
  filter (fun a => sib_sale_item_id a =? id) (sale_item_batches db ++ l)
  = allocations_of db id ++ filter (fun a => sib_sale_item_id a =? id) l.
Proof. unfold allocations_of. apply filter_app. Qed.

Lemma sold_app items i pid :
  sumZ si_quantity (filter (fun x => si_product_id x =? pid) (items ++ [i]))
  = sumZ si_quantity (filter (fun x => si_product_id x =? pid) items)
    + (if si_product_id i =? pid then si_quantity i else 0).
Proof.
  rewrite filter_app, sumZ_app. simpl.
  destruct (si_product_id i =? pid); unfold sumZ; simpl; lia.
Qed.

Lemma NoDup_map_filter {A : Type} (key : A -> Z) (g : A -> bool) l :
  NoDup (map key l) -> NoDup (map key (filter g l)).
Proof.
  induction l as [|a l IH]; intros H; [constructor|].
  simpl in H. inversion H as [|? ? Hnotin Hnd]; subst. simpl.
  destruct (g a); [|now apply IH]. simpl. constructor; [|now apply IH].
  intros Hin. apply Hnotin. apply in_map_iff in Hin. destruct Hin as (x & He & Hx).
  apply filter_In in Hx. rewrite <- He. apply in_map. tauto.
Qed.

Lemma sumZ_filter_split {A : Type} (h : A -> Z) (f g : A -> bool) l :
  sumZ h (filter f (filter g l))
  = sumZ h (filter f l) - sumZ (fun x => if g x then 0 else h x) (filter f l).
Proof.
  unfold sumZ. induction l as [|a l IH]; simpl; [reflexivity|].
  destruct (g a) eqn:Hg; simpl; destruct (f a); simpl; rewrite ?Hg; lia.
Qed.


Lemma min_plan_nth rows : forall r k p,
  nth_error (min_plan rows r) k = Some p ->
  exists row, nth_error rows k = Some row /\ fst p = fst row
              /\ ((S k < List.length (min_plan rows r))%nat -> snd p = snd row).
Proof.
  induction rows as [|[bid q] rows IH]; intros r k p H; simpl in H.
  - destruct k; discriminate.
  - destruct (Z.leb_spec r 0) as [Hr|Hr]; [destruct k; discriminate|].
    destruct k as [|k]; simpl in H.
    + injection H as <-. exists (bid, q). simpl. repeat split.
      rewrite (proj2 (Z.leb_gt r 0) Hr). simpl. intros Hlen.
      destruct rows as [|[bid' q'] rows]; simpl in Hlen; [lia|].
      destruct (Z.leb_spec (r - Z.min r q) 0); [simpl in Hlen; lia | lia].
    + destruct (IH _ _ _ H) as (row & H1 & H2 & H3).
      exists row. simpl. repeat split; auto.
      rewrite (proj2 (Z.leb_gt r 0) Hr). simpl. intros Hlen. apply H3. lia.
Qed.

Lemma alloc_rows_nth sid plan : forall sq k a,
  nth_error (alloc_rows sq sid plan) k = Some a ->
  nth_error plan k = Some (sib_batch_id a, sib_quantity a).
Proof.
  induction plan as [|[bid t] plan IH]; intros sq k a H; simpl in H.
  - destruct k; discriminate.
  - destruct k as [|k]; simpl in *; [injection H as <-; reflexivity|].
    eapply IH; eauto.
Qed.

Lemma alloc_rows_length sid plan : forall sq,
  List.length (alloc_rows sq sid plan) = List.length plan.
Proof. induction plan as [|[bid t] plan IH]; intros sq; simpl; auto. Qed.

Lemma added_same {A} (l : list A) : added l l = [].
Proof. unfold added. induction l; simpl; auto. Qed.

(** ** One line of a checkout *)

Lemma item_exists_insert db sid pid q price :
  item_exists (fst (insert_sale_item db sid pid q price)) (seq_sale_items db + 1) = true.
Proof.
  unfold item_exists, insert_sale_item. simpl. rewrite existsb_app. simpl.
  rewrite Z.eqb_refl. now rewrite !Bool.orb_true_r.
Qed.

(** The body of the checkout loop: the INSERT of the sale item is refused,
    and the loop left, or the line is written as [line_db] has it and the
    loop goes on. *)
Lemma checkout_lines_cons E db sid i rest :
  Main.checkout_lines E db sid (i :: rest) =
  if fits_int64 (c_qty i) then
    if sale_exists db sid && product_exists db (c_id i) then
      let '(db3, ws, e) := Main.checkout_lines E (line_db E db sid i) sid rest in
      (db3, line_msgs E db i ++ ws, e)
    else (db, [], Some IntegrityError)
  else (db, [], Some OverflowError).
Proof.
  cbn [Main.checkout_lines]. unfold execute_insert_sale_item.
  destruct (fits_int64 (c_qty i)); cbn [negb]; [|reflexivity].
  destruct (sale_exists db sid && product_exists db (c_id i)); [|reflexivity].
  pose proof (item_exists_insert db sid (c_id i) (c_qty i) (c_price i)) as Hi.
  unfold insert_sale_item in *. cbn [fst] in Hi.
  rewrite (@fifo_result E _ (c_id i) (c_qty i) _ (c_name i) Hi).
  reflexivity.
Qed.

Lemma line_plan_entries E db i :
  Forall (fun p => 0 < snd p /\
                   exists b, In b (batches db) /\ b_id b = fst p /\ b_product_id b = c_id i)
         (line_plan E db i).
Proof.
  unfold line_plan.
  assert (Hrows : Forall (fun p => 0 < snd p) (fifo_rows E db (c_id i))).
  { unfold fifo_rows. apply Forall_forall. intros p Hp.
    apply in_map_iff in Hp. destruct Hp as (b & <- & Hb). simpl.
    pose proof (fifo_batches_in_stock E db (c_id i)) as Hs.
    rewrite Forall_forall in Hs. now apply Hs. }
  eapply Forall_impl; [|apply (min_plan_entries Hrows)].
  simpl. intros p [Hp Hin]. split; [assumption|].
  unfold fifo_rows in Hin. rewrite map_map in Hin. simpl in Hin.
  apply in_map_iff in Hin. destruct Hin as (b & Hid & Hb).
  exists b. split; [|split; [assumption|]].
  - apply (Permutation_in _ (Permutation_sym (fifo_batches_perm E db (c_id i)))) in Hb.
    apply filter_In in Hb. tauto.
  - pose proof (fifo_batches_in_stock E db (c_id i)) as Hs.
    rewrite Forall_forall in Hs. now apply Hs.
Qed.

Lemma line_well_formed E db sid i :
  well_formed db -> well_formed (line_db E db sid i).
Proof.
  intros [W1 W2 W3 W4 W5]. unfold line_db.
  constructor; cbn [batches seq_batches sale_items seq_sale_items sale_item_batches].
  - now rewrite map_b_id_deduct.
  - unfold deduct. rewrite Forall_map. exact W2.
  - rewrite map_app. simpl. apply NoDup_app_remove_l with (l := []). simpl.
    apply Permutation_NoDup with (l := (seq_sale_items db + 1) :: map si_id (sale_items db)).
    + apply Permutation_cons_append.
    + constructor; [|assumption]. intros Hin. apply in_map_iff in Hin.
      destruct Hin as (si & He & Hsi). rewrite Forall_forall in W4.
      specialize (W4 si Hsi). lia.
  - apply Forall_app. split.
    + eapply Forall_impl; [|exact W4]. simpl. intros. lia.
    + constructor; [simpl; lia | constructor].
  - set (db' := mkDB _ _ _ _ _ _ _ _ _ _ _).
    assert (Hi : forall si, In si (sale_items db) ->
      exists si', In si' (sale_items db') /\ si_id si' = si_id si
                  /\ si_product_id si' = si_product_id si).
    { intros si Hsi. exists si. split; [|auto]. simpl. apply in_or_app. now left. }
    assert (Hb : forall b, In b (batches db) ->
      exists b', In b' (batches db') /\ b_id b' = b_id b
                 /\ b_product_id b' = b_product_id b).
    { intros b Hb. apply in_deduct. exact Hb. }
    apply Forall_app. split.
    + eapply Forall_impl; [|exact W5]. intros a. apply alloc_ok_mono; assumption.
    + apply Forall_forall. intros a Ha. apply alloc_rows_in in Ha.
      destruct Ha as [Hsid Hin].
      pose proof (line_plan_entries E db i) as Hp. rewrite Forall_forall in Hp.
      destruct (Hp _ Hin) as (Hq & b & Hbin & Hbid & Hbp). simpl in *.
      split; [assumption|].
      destruct (Hb b Hbin) as (b' & H1 & H2 & H3).
      exists (mkSaleItem (seq_sale_items db + 1) sid (c_id i) (c_qty i) (c_price i)), b'.
      simpl. repeat split; try congruence.
      apply in_or_app. right. now left.
Qed.

Lemma fifo_rows_nonneg E db pid :
  Forall (fun p : Z * Z => 0 <= snd p) (fifo_rows E db pid).
Proof.
  unfold fifo_rows. apply Forall_forall. intros p Hp.
  apply in_map_iff in Hp. destruct Hp as (x & <- & Hx). simpl.
  pose proof (fifo_batches_in_stock E db pid) as Hs.
  rewrite Forall_forall in Hs. destruct (Hs x Hx). lia.
Qed.

(** What the fetched rows hold for a batch of the table. *)
Lemma delta_of_fifo_rows E db pid b :
  NoDup (map b_id (batches db)) -> In b (batches db) ->
  delta_of (fifo_rows E db pid) (b_id b)
  = if in_stock_of pid b then b_quantity b else 0.
Proof.
  intros Hn Hb. unfold fifo_rows. rewrite delta_of_rows.
  rewrite <- (sumZ_perm _ (fifo_batches_perm E db pid)).
  rewrite <- (@sumZ_single _ b_id (batches db) (in_stock_of pid) b_quantity b Hn Hb).
  unfold sumZ. f_equal. apply map_ext. intros x. now rewrite Z.eqb_sym.
Qed.

Lemma line_nonneg E db sid i :
  well_formed db -> nonneg_batches db -> nonneg_batches (line_db E db sid i).
Proof.
  intros W Hnn. unfold line_db, nonneg_batches in *. cbn [batches].
  unfold deduct. rewrite Forall_map. apply Forall_forall. intros b Hb. simpl.
  rewrite Forall_forall in Hnn. specialize (Hnn b Hb).
  pose proof (delta_of_min_plan_le (b_id b) (fifo_rows_nonneg E db (c_id i)) (c_qty i)) as Hle.
  fold (line_plan E db i) in Hle.
  rewrite (@delta_of_fifo_rows E db (c_id i) b (wf_batch_ids W) Hb) in Hle.
  destruct (in_stock_of (c_id i) b); lia.
Qed.

Lemma line_filled E db i :
  0 < c_qty i -> line_msgs E db i = [] -> total (line_plan E db i) = c_qty i.
Proof.
  unfold line_msgs. intros Hq Hw.
  destruct (Z.gtb_spec (c_qty i - total (line_plan E db i)) 0); [discriminate|].
  pose proof (@min_plan_total _ (fifo_rows_nonneg E db (c_id i)) (c_qty i) ltac:(lia)) as Hm.
  fold (line_plan E db i) in Hm. lia.
Qed.

(** A line that raises no stock warning was allocated in full: what left
    the batches is what the new sale item records. *)
Lemma line_balance E db sid i :
  NoDup (map b_id (batches db)) -> 0 < c_qty i -> line_msgs E db i = [] ->
  forall pid, balance (line_db E db sid i) pid = balance db pid.
Proof.
  intros Hn Hq Hw pid. pose proof (@line_filled E db i Hq Hw) as Htot.
  pose proof (line_plan_entries E db i) as Hent.
  unfold line_db, balance, on_hand, total_stock, sold.
  cbn [batches sale_items]. fold (sumZ b_quantity).
  change (fold_right Z.add 0 (map b_quantity ?l)) with (sumZ b_quantity l).
  rewrite (@stock_after_deduct (batches db) (c_id i) pid (line_plan E db i) Hn).
  - rewrite sold_app. simpl. rewrite Htot. destruct (c_id i =? pid); lia.
  - eapply Forall_impl; [|exact Hent]. simpl. tauto.
Qed.

(** ... and the items stay covered by their allocations. *)
Lemma line_covered E db sid i :
  well_formed db -> 0 < c_qty i -> line_msgs E db i = [] ->
  items_covered db -> items_covered (line_db E db sid i).
Proof.
  intros W Hq Hw Hcov. pose proof (@line_filled E db i Hq Hw) as Htot.
  pose proof (line_plan_entries E db i) as Hent.
  assert (Hpos : forall l, Forall (fun a => 0 < sib_quantity a) l ->
                 forall id, 0 <= sumZ sib_quantity (filter (fun a => sib_sale_item_id a =? id) l)).
  { intros l Hl id. apply sumZ_nonneg. apply Forall_forall. intros a Ha.
    apply filter_In in Ha. rewrite Forall_forall in Hl. destruct Ha as [Ha _].
    specialize (Hl a Ha). lia. }
  assert (Hnew : Forall (fun a => 0 < sib_quantity a)
            (alloc_rows (seq_sale_item_batches db) (seq_sale_items db + 1) (line_plan E db i))).
  { apply Forall_forall. intros a Ha. apply alloc_rows_in in Ha. destruct Ha as [_ Ha].
    rewrite Forall_forall in Hent. destruct (Hent _ Ha) as [H _]. exact H. }
  unfold line_db, items_covered in *. cbn [sale_items]. apply Forall_app. split.
  - eapply Forall_impl; [|exact Hcov]. intros si Hsi. unfold allocations_of in *.
    cbn [sale_item_batches]. rewrite filter_app, sumZ_app.
    pose proof (Hpos _ Hnew (si_id si)). lia.
  - constructor; [|constructor]. unfold allocations_of. cbn [sale_item_batches si_id si_quantity].
    rewrite filter_app, sumZ_app, sumZ_alloc_rows, Htot.
    assert (Hold : Forall (fun a => 0 < sib_quantity a) (sale_item_batches db)).
    { eapply Forall_impl; [|exact (wf_allocs W)]. intros a [H _]. exact H. }
    pose proof (Hpos _ Hold (seq_sale_items db + 1)). lia.
Qed.

(** ** A whole checkout *)

Lemma set_sales_well_formed db ss sq : well_formed db -> well_formed (set_sales db ss sq).
Proof. intros [W1 W2 W3 W4 W5]. constructor; assumption. Qed.

Lemma no_warning_app (w ws : list Msg) :
  Forall (fun m => is_stock_warning m = false) (w ++ ws) ->
  Forall (fun m => is_stock_warning m = false) w
  /\ Forall (fun m => is_stock_warning m = false) ws.
Proof. apply Forall_app. Qed.

Lemma line_no_warning E db i :
  Forall (fun m => is_stock_warning m = false) (line_msgs E db i) ->
  line_msgs E db i = [].
Proof.
  unfold line_msgs.
  destruct (c_qty i - total (line_plan E db i) >? 0); [|reflexivity].
  intros H. inversion H as [|? ? Hw _]. discriminate.
Qed.

(** The lines of a cart that were written. *)
Lemma checkout_lines_prefix E cart : forall db sid,
  let r := Main.checkout_lines E db sid cart in
  exists done rest,
    cart = done ++ rest
    /\ fst (fst r) = fold_left (fun d i => line_db E d sid i) done db
    /\ (rest = [] -> snd r = None)
    /\ (rest <> [] -> exists e, snd r = Some e)
    /\ (sale_exists db sid = true -> Forall (line_ok db) cart -> rest = []).
Proof.
  induction cart as [|i cart IH]; intros db sid r.
  - exists [], []. subst r. simpl. repeat split; auto. congruence.
  - subst r. rewrite checkout_lines_cons.
    destruct (fits_int64 (c_qty i)) eqn:Hf.
    + destruct (sale_exists db sid && product_exists db (c_id i)) eqn:Hg.
      * destruct (IH (line_db E db sid i) sid) as (done & rest & H1 & H2 & H3 & H4 & H5).
        destruct (Main.checkout_lines E (line_db E db sid i) sid cart) as [[db3 ws] e].
        cbn [fst snd] in *. exists (i :: done), rest. subst cart.
        repeat split; auto.
        intros Hs Hl. inversion Hl; subst. apply H5; [exact Hs | assumption].
      * exists [], (i :: cart). cbn [fst snd]. repeat split; auto.
        -- congruence.
        -- intros _. eauto.
        -- intros Hs Hl. inversion Hl as [|? ? [Hp _] _]; subst.
           rewrite Hs, Hp in Hg. discriminate.
    + exists [], (i :: cart). cbn [fst snd]. repeat split; auto.
      * congruence.
      * intros _. eauto.
      * intros Hs Hl. inversion Hl as [|? ? [_ Hq] _]; subst. congruence.
Qed.

Lemma lines_db_tables E sid done : forall db,
  let db' := fold_left (fun d i => line_db E d sid i) done db in
  products db' = products db /\ sales db' = sales db /\ returns db' = returns db
  /\ seq_sales db' = seq_sales db /\ seq_batches db' = seq_batches db
  /\ seq_returns db' = seq_returns db
  /\ map b_id (batches db') = map b_id (batches db)
  /\ sale_items db' = sale_items db ++ item_rows (seq_sale_items db) sid done
  /\ seq_sale_items db' = seq_sale_items db + Z.of_nat (List.length done).
Proof.
  induction done as [|i done IH]; intros db db'.
  - subst db'. simpl. rewrite app_nil_r, Z.add_0_r. repeat split; reflexivity.
  - subst db'. cbn [fold_left].
    destruct (IH (line_db E db sid i)) as (H1 & H2 & H3 & H4 & H5 & H6 & H7 & H8 & H9).
    rewrite H1, H2, H3, H4, H5, H6, H7, H8, H9. unfold line_db at 1 2 3 4 5 6 7 8 9.
    cbn [products sales returns seq_sales seq_batches seq_returns batches sale_items
         seq_sale_items item_rows List.length].
    rewrite map_b_id_deduct, <- app_assoc. repeat split; try reflexivity.
    unfold line_db. cbn [seq_sale_items]. lia.
Qed.

Lemma checkout_lines_invariant E cart : forall db sid,
  well_formed db -> Forall (fun c => 0 < c_qty c) cart ->
  let r := Main.checkout_lines E db sid cart in
  well_formed (fst (fst r))
  /\ (nonneg_batches db -> nonneg_batches (fst (fst r)))
  /\ (Forall (fun m => is_stock_warning m = false) (snd (fst r)) ->
      (items_covered db -> items_covered (fst (fst r)))
      /\ forall pid, balance (fst (fst r)) pid = balance db pid).
Proof.
  induction cart as [|i cart IH]; intros db sid W Hc.
  - simpl. auto.
  - inversion Hc as [|? ? Hi Hc']; subst.
    rewrite checkout_lines_cons.
    destruct (fits_int64 (c_qty i)); [|cbn [fst snd]; auto].
    destruct (sale_exists db sid && product_exists db (c_id i)); [|cbn [fst snd]; auto].
    pose proof (@line_well_formed E db sid i W) as W'.
    destruct (IH _ sid W' Hc') as (H1 & H2 & H3).
    destruct (Main.checkout_lines E (line_db E db sid i) sid cart) as [[db3 ws] e].
    cbn [fst snd] in *.
    split; [assumption|]. split.
    + intros Hnn. apply H2. now apply line_nonneg.
    + intros Hw. apply no_warning_app in Hw. destruct Hw as [Hw1 Hw2].
      apply line_no_warning in Hw1. destruct (H3 Hw2) as [Hcov' Hbal'].
      split.
      * intros Hcov. apply Hcov'. now apply line_covered.
      * intros pid. rewrite Hbal'. now apply line_balance; [apply (wf_batch_ids W)| |].
Qed.

Lemma checkout_shown E db user now receipt cart :
  Forall (fun m => is_stock_warning m = false)
         (snd (shown (Main.checkout E db user now receipt cart))) ->
  cart = [] \/
  Forall (fun m => is_stock_warning m = false)
    (snd (fst (Main.checkout_lines E (fst (insert_sale db user
                   (fold_right Z.add 0 (map c_subtotal cart)) now))
                 (seq_sales db + 1) cart))).
Proof.
  intros H. destruct cart as [|c cart]; [now left|]. right. revert H.
  unfold shown, Main.checkout. cbv zeta. unfold insert_sale. cbn [fst snd].
  destruct (Main.checkout_lines E _ _ (c :: cart)) as [[db2 ws] [e|]]; cbn [fst snd].
  - intros H. apply no_warning_app in H. tauto.
  - destruct receipt; cbn [fst snd]; intros H; apply no_warning_app in H;
      destruct H as [H _]; try (apply no_warning_app in H); tauto.
Qed.

Lemma checkout_db E db user now receipt cart :
  fst (fst (Main.checkout E db user now receipt cart))
  = match cart with
    | [] => db
    | _ => fst (fst (Main.checkout_lines E (fst (insert_sale db user
                   (fold_right Z.add 0 (map c_subtotal cart)) now))
                 (seq_sales db + 1) cart))
    end.
Proof.
  destruct cart as [|c cart]; [reflexivity|].
  unfold Main.checkout. cbv zeta. unfold insert_sale. cbn [fst snd].
  destruct (Main.checkout_lines E _ _ (c :: cart)) as [[db2 ws] [e|]]; [reflexivity|].
  now destruct receipt.
Qed.

Lemma checkout_invariant E db user now receipt cart :
  well_formed db -> Forall (fun c => 0 < c_qty c) cart ->
  let r := shown (Main.checkout E db user now receipt cart) in
  well_formed (fst r)
  /\ (nonneg_batches db -> nonneg_batches (fst r))
  /\ (Forall (fun m => is_stock_warning m = false) (snd r) ->
      (items_covered db -> items_covered (fst r))
      /\ forall pid, balance (fst r) pid = balance db pid).
Proof.
  intros W Hc r.
  assert (Hdb : fst r = fst (fst (Main.checkout E db user now receipt cart)))
    by reflexivity.
  rewrite Hdb, checkout_db.
  destruct cart as [|c cart]; [auto|].
  pose proof (@checkout_lines_invariant E (c :: cart)
                (fst (insert_sale db user
                   (fold_right Z.add 0 (map c_subtotal (c :: cart))) now))
                (seq_sales db + 1)
                (set_sales_well_formed _ _ W) Hc) as H.
  cbv zeta in H. destruct H as (H1 & H2 & H3).
  split; [assumption|]. split; [exact H2|].
  intros Hw. destruct (checkout_shown _ _ _ _ _ _ Hw) as [Hn|Hw']; [discriminate|].
  exact (H3 Hw').
Qed.

(** ** A return in mainproject.py *)

(** The return precondition of mainproject.py (and 7.py): a return is
    accepted exactly when its quantity is positive and at most the quantity
    the sale item shows, and a refused return writes nothing. *)
Lemma Main_return_precondition E db row q reason :
  (0 < q <= t_qty row ->
   returns (fst (Main._process_return E db (Some row) q reason))
   = returns db ++ [mkReturn (seq_returns db + 1) (t_id row) q reason])
  /\ (~ (0 < q <= t_qty row) ->
      Main._process_return E db (Some row) q reason = (db, [Err_InvalidReturnQuantity])).
Proof.
  unfold Main._process_return. rewrite Z.gtb_ltb.
  destruct (Z.leb_spec q 0) as [H1|H1]; destruct (Z.ltb_spec (t_qty row) q) as [H2|H2];
    simpl; split; intros H; try lia; try reflexivity.
  rewrite give_back_loop_eq. reflexivity.
Qed.

Lemma process_return_accepted E db row r reason :
  0 < r <= t_qty row ->
  fst (Main._process_return E db (Some row) r reason)
  = mkDB (products db) (restock (return_plan E db (t_id row) r) (batches db)) (sales db)
         (map (adjust_item r (t_id row)) (sale_items db)) (sale_item_batches db)
         (returns db ++ [mkReturn (seq_returns db + 1) (t_id row) r reason])
         (seq_batches db) (seq_sales db) (seq_sale_items db)
         (seq_sale_item_batches db) (seq_returns db + 1).
Proof.
  intros Hr. unfold Main._process_return. rewrite Z.gtb_ltb.
  destruct (Z.leb_spec r 0); [lia|]. destruct (Z.ltb_spec (t_qty row) r); [lia|].
  simpl. rewrite give_back_loop_eq. reflexivity.
Qed.

Lemma process_return_rejected E db sel r reason :
  (forall row, sel = Some row -> ~ 0 < r <= t_qty row) ->
  fst (Main._process_return E db sel r reason) = db.
Proof.
  intros H. destruct sel as [row|]; [|reflexivity].
  destruct (Main_return_precondition E db row r reason) as [_ Hrej].
  rewrite Hrej; [reflexivity|]. now apply H.
Qed.

Lemma return_plan_entries E db si r :
  well_formed db -> In si (sale_items db) ->
  Forall (fun p => 0 < snd p /\
                   exists b, In b (batches db) /\ b_id b = fst p
                             /\ b_product_id b = si_product_id si)
         (return_plan E db (si_id si) r).
Proof.
  intros W Hsi. unfold return_plan, Main.batches_of_item.
  set (allocs := order_by E sib_id_asc _).
  assert (Hall : forall a, In a allocs ->
            In a (sale_item_batches db) /\ sib_sale_item_id a = si_id si).
  { intros a Ha.
    apply (Permutation_in _ (Permutation_sym (order_by_perm E sib_id_asc _))) in Ha.
    apply filter_In in Ha. destruct Ha as [H1 H2]. apply Z.eqb_eq in H2. auto. }
  pose proof (wf_allocs W) as Hok. rewrite Forall_forall in Hok.
  assert (Hrows : Forall (fun p : Z * Z => 0 < snd p)
                    (map (fun a => (sib_batch_id a, sib_quantity a)) allocs)).
  { apply Forall_forall. intros p Hp. apply in_map_iff in Hp.
    destruct Hp as (a & <- & Ha). simpl. destruct (Hall a Ha) as [Hin _].
    destruct (Hok a Hin) as [Hq _]. exact Hq. }
  eapply Forall_impl; [|apply (min_plan_entries Hrows)].
  simpl. intros p [Hp Hin]. split; [assumption|].
  rewrite map_map in Hin. simpl in Hin. apply in_map_iff in Hin.
  destruct Hin as (a & Hid & Ha). destruct (Hall a Ha) as [Hin Hsid].
  destruct (Hok a Hin) as (_ & si' & b & H1 & H2 & H3 & H4 & H5).
  assert (si' = si).
  { apply (@NoDup_key_inj _ si_id (sale_items db)); auto.
    - apply (wf_item_ids W).
    - congruence. }
  subst si'. exists b. repeat split; congruence.
Qed.

Lemma map_si_id_adjust r iid items :
  map si_id (map (adjust_item r iid) items) = map si_id items.
Proof.
  rewrite map_map. apply map_ext. intros i. unfold adjust_item.
  now destruct (si_id i =? iid).
Qed.

Lemma return_well_formed E db si r reason :
  well_formed db -> In si (sale_items db) -> 0 < r <= si_quantity si ->
  forall row, t_id row = si_id si -> t_qty row = si_quantity si ->
  well_formed (fst (Main._process_return E db (Some row) r reason)).
Proof.
  intros W Hsi Hr row Hid Hqty.
  rewrite process_return_accepted by lia.
  destruct W as [W1 W2 W3 W4 W5].
  constructor; cbn [batches seq_batches sale_items seq_sale_items sale_item_batches].
  - now rewrite map_b_id_restock.
  - unfold restock. rewrite Forall_map. exact W2.
  - now rewrite map_si_id_adjust.
  - rewrite Forall_map. eapply Forall_impl; [|exact W4].
    intros i Hi. unfold adjust_item. now destruct (si_id i =? t_id row).
  - eapply Forall_impl; [|exact W5]. intros a. apply alloc_ok_mono.
    + intros i Hi. exists (adjust_item r (t_id row) i).
      split; [simpl; now apply in_map|].
      unfold adjust_item. now destruct (si_id i =? t_id row).
    + intros b Hb. simpl. now apply in_restock.
Qed.

Lemma return_nonneg E db si r reason :
  well_formed db -> In si (sale_items db) -> 0 < r <= si_quantity si ->
  forall row, t_id row = si_id si -> t_qty row = si_quantity si ->
  nonneg_batches db ->
  nonneg_batches (fst (Main._process_return E db (Some row) r reason)).
Proof.
  intros W Hsi Hr row Hid Hqty Hnn.
  rewrite process_return_accepted by lia.
  unfold nonneg_batches in *. cbn [batches]. unfold restock. rewrite Forall_map.
  eapply Forall_impl; [|exact Hnn]. simpl. intros b Hb.
  assert (0 <= delta_of (return_plan E db (t_id row) r) (b_id b)); [|lia].
  apply delta_of_nonneg. rewrite Hid.
  eapply Forall_impl; [|apply (@return_plan_entries E db si r W Hsi)].
  simpl. intros p [Hp _]. lia.
Qed.

(** When the allocation rows of the item cover the quantity it shows, the
    give-back loop places the whole return. *)
Lemma return_plan_total E db si r :
  well_formed db -> In si (sale_items db) ->
  si_quantity si <= sumZ sib_quantity (allocations_of db (si_id si)) ->
  0 < r <= si_quantity si ->
  total (return_plan E db (si_id si) r) = r.
Proof.
  intros W Hsi Hcov Hr. unfold return_plan, Main.batches_of_item.
  set (allocs := order_by E sib_id_asc _).
  assert (Hperm : Permutation (allocations_of db (si_id si)) allocs)
    by apply order_by_perm.
  assert (Hrows : Forall (fun p : Z * Z => 0 <= snd p)
                    (map (fun a => (sib_batch_id a, sib_quantity a)) allocs)).
  { apply Forall_forall. intros p Hp. apply in_map_iff in Hp.
    destruct Hp as (a & <- & Ha). simpl.
    apply (Permutation_in _ (Permutation_sym Hperm)) in Ha.
    apply filter_In in Ha. destruct Ha as [Ha _].
    pose proof (wf_allocs W) as Hok. rewrite Forall_forall in Hok.
    destruct (Hok a Ha) as [Hq _]. lia. }
  rewrite (@min_plan_total _ Hrows r) by lia.
  assert (Hsum : total (map (fun a => (sib_batch_id a, sib_quantity a)) allocs)
                 = sumZ sib_quantity (allocations_of db (si_id si))).
  { unfold total. rewrite map_map. simpl. symmetry. apply (sumZ_perm _ Hperm). }
  lia.
Qed.

(** What an accepted return does to the stock and to the units recorded as
    sold. *)
Lemma return_stock E db si r reason row :
  well_formed db -> In si (sale_items db) -> t_id row = si_id si ->
  0 < r <= t_qty row ->
  forall pid,
    on_hand (fst (Main._process_return E db (Some row) r reason)) pid
    = on_hand db pid
      + (if si_product_id si =? pid then total (return_plan E db (si_id si) r) else 0).
Proof.
  intros W Hsi Hid Hr pid. rewrite process_return_accepted by lia.
  unfold on_hand, total_stock. cbn [batches].
  change (fold_right Z.add 0 (map b_quantity ?l)) with (sumZ b_quantity l).
  rewrite Hid.
  rewrite (@stock_after_restock (batches db) (si_product_id si) pid
             (return_plan E db (si_id si) r) (wf_batch_ids W)); [reflexivity|].
  eapply Forall_impl; [|apply (@return_plan_entries E db si r W Hsi)]. simpl. tauto.
Qed.

Lemma return_sold E db si r reason row :
  well_formed db -> In si (sale_items db) -> t_id row = si_id si ->
  0 < r <= t_qty row ->
  forall pid,
    sold (fst (Main._process_return E db (Some row) r reason)) pid
    = sold db pid - (if si_product_id si =? pid then r else 0).
Proof.
  intros W Hsi Hid Hr pid. rewrite process_return_accepted by lia.
  unfold sold. cbn [sale_items]. rewrite Hid.
  rewrite filter_map_commute.
  2:{ intros x. unfold adjust_item. now destruct (si_id x =? si_id si). }
  rewrite sumZ_map.
  assert (Hadj : forall l, sumZ (fun x => si_quantity (adjust_item r (si_id si) x)) l
                 = sumZ (fun x => si_quantity x
                                  - (if si_id si =? si_id x then r else 0)) l).
  { intros l. unfold sumZ. f_equal. apply map_ext. intros x.
    unfold adjust_item. rewrite (Z.eqb_sym (si_id si)).
    destruct (si_id x =? si_id si); simpl; lia. }
  rewrite Hadj, sumZ_sub.
  rewrite (@sumZ_single _ si_id (sale_items db) _ (fun _ => r) si (wf_item_ids W) Hsi).
  reflexivity.
Qed.

Lemma return_covered E db r reason row :
  0 < r <= t_qty row -> items_covered db ->
  items_covered (fst (Main._process_return E db (Some row) r reason)).
Proof.
  intros Hr Hcov. rewrite process_return_accepted by lia.
  unfold items_covered in *. cbn [sale_items]. rewrite Forall_map.
  eapply Forall_impl; [|exact Hcov]. simpl. intros x Hx.
  unfold allocations_of in *. cbn [sale_item_batches].
  unfold adjust_item. destruct (si_id x =? t_id row); simpl; lia.
Qed.

Lemma return_balance E db si r reason :
  well_formed db -> items_covered db -> In si (sale_items db) ->
  0 < r <= si_quantity si ->
  forall row, t_id row = si_id si -> t_qty row = si_quantity si ->
  let db' := fst (Main._process_return E db (Some row) r reason) in
  items_covered db' /\ forall pid, balance db' pid = balance db pid.
Proof.
  intros W Hcov Hsi Hr row Hid Hqty db'. unfold db'.
  split; [apply return_covered; [lia | exact Hcov]|].
  intros pid. unfold balance.
  rewrite (@return_stock E db si r reason row W Hsi Hid) by lia.
  rewrite (@return_sold E db si r reason row W Hsi Hid) by lia.
  rewrite (@return_plan_total E db si r W Hsi); [|  | exact Hr].
  - destruct (si_product_id si =? pid); lia.
  - unfold items_covered in Hcov. rewrite Forall_forall in Hcov. exact (Hcov si Hsi).
Qed.

(** ** An intake in mainproject.py *)

Lemma add_batch_cases db d now :
  Main._add_batch db d now = (db, [Err_ProductRequired])
  \/ Main._add_batch db d now = (db, [Err_Exception OverflowError])
  \/ exists p,
       product_by_name db (f_product d) = Some p /\
       fits_int64 (f_quantity d) = true /\
       Main._add_batch db d now =
       (set_batches db
          (batches db ++ [mkBatch (seq_batches db + 1) (p_id p) (f_supplier d)
                                  (Some (f_batch_no d)) (f_quantity d)
                                  (or_none (f_expiry d)) (f_cost_price d) now])
          (seq_batches db + 1), [Info_BatchSaved]).
Proof.
  unfold Main._add_batch. destruct (product_by_name db (f_product d)) as [p|]; [|now left].
  destruct (p_id p =? 0); [now left|]. right.
  destruct (fits_int64 (f_quantity d)); [|now left].
  right. exists p. auto.
Qed.

Lemma append_batch_well_formed db b :
  well_formed db -> b_id b = seq_batches db + 1 ->
  well_formed (set_batches db (batches db ++ [b]) (seq_batches db + 1)).
Proof.
  intros [W1 W2 W3 W4 W5] Hb.
  constructor; cbn [batches seq_batches sale_items seq_sale_items sale_item_batches set_batches];
    try assumption.
  - rewrite map_app. simpl.
    apply Permutation_NoDup with (l := b_id b :: map b_id (batches db)).
    + apply Permutation_cons_append.
    + constructor; [|assumption]. intros Hin. apply in_map_iff in Hin.
      destruct Hin as (x & He & Hx). rewrite Forall_forall in W2.
      specialize (W2 x Hx). lia.
  - apply Forall_app. split.
    + eapply Forall_impl; [|exact W2]. simpl. intros. lia.
    + constructor; [lia | constructor].
  - eapply Forall_impl; [|exact W5]. intros a. apply alloc_ok_mono.
    + intros i Hi. exists i. auto.
    + intros x Hx. exists x. split; [simpl; apply in_or_app; now left | auto].
Qed.

Lemma stock_after_append db b sq pid :
  on_hand (set_batches db (batches db ++ [b]) sq) pid
  = on_hand db pid + (if b_product_id b =? pid then b_quantity b else 0).
Proof.
  unfold on_hand, total_stock. cbn [batches set_batches].
  rewrite filter_app, map_app, fold_right_app. cbn [filter].
  destruct (b_product_id b =? pid); cbn [map fold_right].
  - rewrite Z.add_0_r.
    generalize (map b_quantity (filter (fun b0 => b_product_id b0 =? pid) (batches db))).
    intros l. induction l as [|x l IH]; simpl; lia.
  - lia.
Qed.

Lemma intake_step E db d now :
  well_formed db ->
  let db' := fst (MainRun.step E db (Intake d now)) in
  well_formed db'
  /\ (0 <= f_quantity d -> nonneg_batches db -> nonneg_batches db')
  /\ (items_covered db -> items_covered db')
  /\ forall pid, balance db' pid = balance db pid + intake_of E db (Intake d now) pid.
Proof.
  intros W db'. unfold db', intake_of. cbn [MainRun.step].
  destruct (add_batch_cases db d now) as [->|[->|(p & Hp & Hf & ->)]]; cbn [fst snd].
  - split; [exact W|]. split; [auto|]. split; [auto|]. intros pid. lia.
  - split; [exact W|]. split; [auto|]. split; [auto|]. intros pid. lia.
  - split; [apply append_batch_well_formed; auto|].
    split; [|split].
    + intros Hq Hnn. unfold nonneg_batches in *. simpl. apply Forall_app.
      split; [assumption|]. constructor; [simpl; lia | constructor].
    + intros Hcov. exact Hcov.
    + intros pid. unfold balance. rewrite stock_after_append.
      unfold entered. rewrite Hp. unfold sold. cbn [sale_items set_batches
        b_product_id b_quantity]. lia.
Qed.

(** ** Runs of mainproject.py *)

Lemma step_invariant E db o :
  well_formed db ->
  let r := MainRun.step E db o in
  well_formed (fst r)
  /\ (match o with Intake d _ => 0 <= f_quantity d | _ => True end ->
      nonneg_batches db -> nonneg_batches (fst r))
  /\ (Forall (fun m => is_stock_warning m = false) (snd r) -> items_covered db ->
      items_covered (fst r)
      /\ forall pid, balance (fst r) pid = balance db pid + intake_of E db o pid).
Proof.
  intros W. destruct o as [d now|user now entries receipt|sale_id k q reason now].
  - destruct (@intake_step E db d now W) as (H1 & H2 & H3 & H4).
    split; [exact H1|]. split; [exact H2|]. intros _ Hcov. split; [now apply H3 | exact H4].
  - cbn [MainRun.step intake_of].
    destruct (@checkout_invariant E db user now receipt (MainRun.fill_cart db entries) W
                (fill_cart_positive db entries)) as (H1 & H2 & H3).
    split; [exact H1|]. split; [intros _; exact H2|].
    intros Hw Hcov. destruct (H3 Hw) as [H4 H5].
    split; [exact (H4 Hcov)|]. intros pid. rewrite H5. lia.
  - cbn [MainRun.step intake_of].
    destruct (nth_error (Main._load_sale_for_return db sale_id) k) as [row|] eqn:Hrow.
    2:{ simpl. split; [exact W|]. split; [auto|]. intros _ Hc. split; [exact Hc|].
        intros pid. lia. }
    apply nth_error_In in Hrow. apply load_sale_row in Hrow.
    destruct Hrow as (si & Hsi & _ & Hid & _ & Hqty).
    destruct (Z_lt_dec 0 q) as [Hq1|Hq1]; [destruct (Z_le_dec q (t_qty row)) as [Hq2|Hq2]|].
    + assert (Hr : 0 < q <= si_quantity si) by lia.
      split; [eapply return_well_formed; eauto|].
      split; [intros _ Hnn; eapply return_nonneg; eauto|].
      intros _ Hcov.
      destruct (@return_balance E db si q reason W Hcov Hsi Hr row (eq_sym Hid) (eq_sym Hqty))
        as [H1 H2].
      split; [exact H1|]. intros pid. rewrite H2. lia.
    + rewrite process_return_rejected.
      * split; [exact W|]. split; [auto|]. intros _ Hc. split; [exact Hc|]. intros; lia.
      * intros row' Heq. injection Heq as <-. lia.
    + rewrite process_return_rejected.
      * split; [exact W|]. split; [auto|]. intros _ Hc. split; [exact Hc|]. intros; lia.
      * intros row' Heq. injection Heq as <-. lia.
Qed.

Lemma empty_ledger_well_formed ps : well_formed (empty_ledger ps).
Proof. constructor; simpl; constructor. Qed.

Lemma run_nonneg E ops : forall db,
  well_formed db -> nonneg_batches db -> intake_quantities_nonneg ops ->
  nonneg_batches (MainRun.run E db ops).
Proof.
  induction ops as [|o ops IH]; intros db W Hnn Hq; [exact Hnn|].
  inversion Hq as [|? ? Ho Hq']; subst.
  destruct (@step_invariant E db o W) as (H1 & H2 & _).
  change (MainRun.run E db (o :: ops)) with (MainRun.run E (fst (MainRun.step E db o)) ops).
  apply IH; auto.
Qed.


Lemma run_invariant E ops : forall db,
  well_formed db ->
  well_formed (MainRun.run E db ops)
  /\ (items_covered db -> no_shortage E db ops -> items_covered (MainRun.run E db ops)).
Proof.
  induction ops as [|o ops IH]; intros db W; [simpl; auto|].
  destruct (@step_invariant E db o W) as (H1 & _ & H3).
  change (MainRun.run E db (o :: ops)) with (MainRun.run E (fst (MainRun.step E db o)) ops).
  destruct (IH _ H1) as [H4 H5]. split; [exact H4|].
  intros Hcov Hns. unfold no_shortage in Hns. cbn [messages] in Hns.
  apply no_warning_app in Hns. destruct Hns as [Hw Hns].
  destruct (H3 Hw Hcov) as [Hcov' _]. now apply H5.
Qed.

(** ** Runs of 3.py *)














(** ** The plan in the words of the specification *)

Lemma spec_allocate_in bs : forall r b t,
  In (b, t) (spec_allocate bs r) -> In b bs.
Proof.
  induction bs as [|a bs IH]; intros r b t H; simpl in H; [contradiction|].
  destruct (r =? 0); [contradiction|]. destruct H as [H|H].
  - injection H as -> _. now left.
  - right. eapply IH. exact H.
Qed.

Lemma spec_allocate_positive bs :
  Forall (fun b => 0 < b_quantity b) bs ->
  forall r b t, 0 <= r -> In (b, t) (spec_allocate bs r) -> 0 < t.
Proof.
  induction 1 as [|a bs Ha Hbs IH]; intros r b t Hr H; simpl in H; [contradiction|].
  destruct (Z.eqb_spec r 0); [contradiction|]. destruct H as [H|H].
  - injection H as _ <-. lia.
  - apply (IH (r - Z.min r (b_quantity a)) b t); [lia | exact H].
Qed.

Lemma delta_of_absent plan id :
  (forall p, In p plan -> fst p <> id) -> delta_of plan id = 0.
Proof.
  induction plan as [|[i t] plan IH]; intros H; [reflexivity|].
  rewrite delta_of_cons. rewrite IH by (intros p Hp; apply H; now right).
  specialize (H (i, t) (or_introl eq_refl)). simpl in H.
  apply Z.eqb_neq in H. now rewrite H.
Qed.

(** With distinct batch ids, what the plan takes from a batch is the take
    of its one entry. *)
Lemma spec_allocate_delta bs :
  NoDup (map b_id bs) ->
  forall r b t, In (b, t) (spec_allocate bs r) ->
  delta_of (map (fun p => (b_id (fst p), snd p)) (spec_allocate bs r)) (b_id b) = t.
Proof.
  induction bs as [|a bs IH]; intros Hn r b t H; simpl in H; [contradiction|].
  inversion Hn as [|? ? Hna Hn']; subst.
  simpl. destruct (r =? 0); [contradiction|]. simpl. rewrite delta_of_cons.
  destruct H as [H|H].
  - injection H as -> <-. rewrite Z.eqb_refl. rewrite delta_of_absent; [lia|].
    intros p Hp. apply in_map_iff in Hp. destruct Hp as ([b' t'] & <- & Hp). simpl.
    intros He. apply Hna. rewrite <- He. apply in_map. eapply spec_allocate_in. exact Hp.
  - assert (Hne : (b_id a =? b_id b) = false).
    { apply Z.eqb_neq. intros He. apply Hna. rewrite He. apply in_map.
      eapply spec_allocate_in. exact H. }
    rewrite Hne. rewrite (IH Hn' _ b t H). lia.
Qed.


(** ** Claims *)

(** C3. For a product and a requested quantity > 0, on a ledger that
    holds the sale item of the line and whose batch ids are distinct, the
    allocation engine of mainproject.py (and the same loop written in line
    in the checkout of 3.py) considers exactly the batches of the product
    with quantity > 0, oldest received first; walking them in that order it
    takes [min(remaining, batch quantity)] from each, decrements that batch
    by what it took and leaves the other batches as they were, records the
    allocation (sale item, batch, take) and decrements the remaining
    quantity, stopping when nothing remains or the batches are
    exhausted. *)
Theorem fifo_allocation_follows_spec E db pid qty sid pname :
  0 < qty ->
  item_exists db sid = true ->
  NoDup (map b_id (batches db)) ->
  let considered := fifo_batches E db pid in
  let plan := spec_allocate considered qty in
  let remaining := qty - fold_right Z.add 0 (map snd plan) in
  let result := Main._fifo_deduct_with_batch_tracking E db pid qty sid pname in
  Permutation
    (filter (fun b => (b_product_id b =? pid) && (b_quantity b >? 0)) (batches db))
    considered
  /\ Sorted (fun x y => String.leb (b_created_at x) (b_created_at y) = true) considered
  /\ map b_id (batches (fst result)) = map b_id (batches db)
  /\ (forall b t, In (b, t) plan ->
        0 < t /\
        In (mkBatch (b_id b) (b_product_id b) (b_supplier_id b) (b_batch_no b)
                    (b_quantity b - t) (b_expiry_date b) (b_cost_price b)
                    (b_created_at b))
           (batches (fst result)))
  /\ (forall b, In b (batches db) -> ~ In b (map fst plan) -> In b (batches (fst result)))
  /\ sale_item_batches (fst result)
     = sale_item_batches db ++ added (sale_item_batches db) (sale_item_batches (fst result))
  /\ map allocation (added (sale_item_batches db) (sale_item_batches (fst result)))
     = map (fun p => (sid, b_id (fst p), snd p)) plan
  /\ 0 <= remaining
  /\ (remaining = 0 \/ List.length plan = List.length considered)
  /\ snd result = inl (if remaining >? 0 then [Warn_Stock pname remaining] else [])
  /\ fifo_loop (fifo_rows E db pid) qty sid db = (fst result, inl remaining).
Proof.
  intros Hq Hi Hn considered plan remaining result.
  set (takes := map (fun p => (b_id (fst p), snd p)) plan).
  assert (Hperm : Permutation (filter (in_stock_of pid) (batches db)) considered)
    by apply fifo_batches_perm.
  assert (Hpos : Forall (fun b => 0 < b_quantity b) considered).
  { eapply Forall_impl; [|apply fifo_batches_in_stock]. simpl. tauto. }
  assert (Hplan : min_plan (fifo_rows E db pid) qty = takes).
  { unfold fifo_rows. apply min_plan_spec_allocate; [exact Hpos | lia]. }
  assert (Hrem : remaining = qty - total takes).
  { unfold remaining, takes, total. now rewrite map_map. }
  assert (Hloop := @fifo_loop_eq (fifo_rows E db pid) qty sid db Hi
                     (fifo_rows_exist E db pid)).
  cbv zeta in Hloop. rewrite Hplan, <- Hrem in Hloop.
  assert (Hres : result =
    (mkDB (products db) (deduct takes (batches db)) (sales db) (sale_items db)
          (sale_item_batches db ++ alloc_rows (seq_sale_item_batches db) sid takes)
          (returns db) (seq_batches db) (seq_sales db) (seq_sale_items db)
          (seq_sale_item_batches db + Z.of_nat (List.length takes)) (seq_returns db),
     inl (if remaining >? 0 then [Warn_Stock pname remaining] else []))).
  { unfold result. rewrite (@fifo_result E db pid qty sid pname Hi).
    cbv zeta. rewrite Hplan, <- Hrem. reflexivity. }
  assert (Hin : forall b, In b considered -> In b (batches db)).
  { intros b Hb. apply (Permutation_in _ (Permutation_sym Hperm)) in Hb.
    apply filter_In in Hb. tauto. }
  assert (Hnc : NoDup (map b_id considered)).
  { apply (Permutation_NoDup (Permutation_map b_id Hperm)).
    apply NoDup_map_filter. exact Hn. }
  rewrite Hloop, Hres. cbn [fst snd batches sale_item_batches].
  rewrite added_app, allocation_alloc_rows.
  split; [exact Hperm|].
  split; [apply (order_by_sorted E created_asc created_asc_total)|].
  split; [apply map_b_id_deduct|].
  split.
  { intros b t Hbt. split.
    - apply (@spec_allocate_positive considered Hpos qty b t); [lia | exact Hbt].
    - unfold deduct. apply in_map_iff. exists b. split.
      + unfold takes, plan. rewrite (@spec_allocate_delta considered Hnc qty b t Hbt). reflexivity.
      + apply Hin. eapply spec_allocate_in. exact Hbt. }
  split.
  { intros b Hb Hnot. unfold deduct. apply in_map_iff. exists b. split; [|exact Hb].
    rewrite delta_of_absent; [rewrite Z.sub_0_r; apply with_quantity_same|].
    intros p Hp He. unfold takes in Hp. apply in_map_iff in Hp.
    destruct Hp as ([b' t'] & <- & Hp). simpl in He. apply Hnot.
    assert (b' = b).
    { apply (@NoDup_key_inj _ b_id (batches db)); auto.
      apply Hin. eapply spec_allocate_in. exact Hp. }
    subst b'. apply in_map_iff. exists (b, t'). auto. }
  split; [reflexivity|].
  split; [unfold takes; now rewrite map_map|].
  destruct (spec_allocate_stop Hpos (r := qty)) as [H1 H2]; [lia|].
  fold plan in H1, H2. fold remaining in H1, H2.
  repeat split; auto.
Qed.

Lemma fifo_allocation_follows_spec_witness :
  0 < 7 /\ item_exists example_line 1 = true
  /\ NoDup (map b_id (batches example_line))
  /\ map b_quantity (batches example_line) = [5; 10]
  /\ (let result := Main._fifo_deduct_with_batch_tracking rowid_engine example_line
                      1 7 1 "P" in
      map allocation (added (sale_item_batches example_line)
                            (sale_item_batches (fst result)))
      = [(1, 1, 5); (1, 2, 2)]
      /\ map b_quantity (batches (fst result)) = [0; 8]
      /\ snd result = inl []).
Proof.
  assert (H1 : item_exists example_line 1 = true) by reflexivity.
  assert (H2 : NoDup (map b_id (batches example_line))).
  { vm_compute. repeat constructor; simpl; intuition discriminate. }
  split; [lia|]. split; [exact H1|]. split; [exact H2|]. split; [reflexivity|].
  pose proof (@fifo_allocation_follows_spec rowid_engine example_line 1 7 1 "P"
                ltac:(lia) H1 H2) as H.
  cbv zeta in H. destruct H as (_ & _ & _ & _ & _ & _ & Ha & _ & _ & Hs & _).
  split; [|split].
  - etransitivity; [exact Ha|]. vm_compute. reflexivity.
  - vm_compute. reflexivity.
  - etransitivity; [exact Hs|]. vm_compute. reflexivity.
Defined.




Lemma fifo_rows_positive E db pid :
  Forall (fun p : Z * Z => 0 < snd p) (fifo_rows E db pid).
Proof.
  unfold fifo_rows. apply Forall_forall. intros p Hp.
  apply in_map_iff in Hp. destruct Hp as (b & <- & Hb). simpl.
  pose proof (fifo_batches_in_stock E db pid) as Hs.
  rewrite Forall_forall in Hs. now apply Hs.
Qed.

(** The check that opens the checkout of 4.py. *)
Lemma rev4_refuses_shortage E db user now cart it :
  In it cart -> total_stock db (c_id it) < c_qty it ->
  Rev4.checkout E db user now cart = (db, [Err_OutOfStock (Rev4.shortages db cart)])
  /\ Rev4.shortages db cart <> [].
Proof.
  intros Hin Hlt.
  assert (Hs : In (c_name it, total_stock db (c_id it), c_qty it) (Rev4.shortages db cart)).
  { unfold Rev4.shortages. apply in_flat_map. exists it. split; [assumption|].
    destruct (Z.ltb_spec (total_stock db (c_id it)) (c_qty it)); [now left | lia]. }
  unfold Rev4.checkout. destruct cart as [|c cart]; [destruct Hin|].
  destruct (Rev4.shortages db (c :: cart)) as [|s l]; [destruct Hs|].
  split; [reflexivity | discriminate].
Qed.






(** Nor is anything undone when a statement raises: with a second line
    whose quantity does not fit 64 bits the INSERT of its sale item is
    refused and the exception leaves the checkout, after the header of the
    sale and the whole first line have been committed. *)
Lemma refused_line_keeps_earlier_lines :
  let db := example_two in
  let cart := MainRun.fill_cart db [("P"%string, 3); ("Q"%string, 9223372036854775808)] in
  let result := Main.checkout rowid_engine db 1 "2024-01-03 09:00:00" ReceiptOpened cart in
  let db' := fst (fst result) in
  map c_qty cart = [3; 9223372036854775808]
  /\ snd result = Some OverflowError
  /\ snd (fst result) = []
  /\ map s_id (sales db') = [1]
  /\ map si_quantity (sale_items db') = [3]
  /\ map allocation (sale_item_batches db') = [(1, 1, 3)]
  /\ map b_quantity (batches db') = [7; 2].
Proof. vm_compute. repeat split; congruence. Qed.



(** C4 fails on mainproject.py: the add-batch dialog stores whatever
    integer is typed as the quantity.  An intake of -5 on the empty ledger
    leaves a batch whose quantity is -5. *)
Theorem negative_intake_leaves_negative_batch :
  let db := MainRun.run rowid_engine (empty_ledger example_products)
              [Intake (example_form (-5)) "2024-01-01 09:00:00"] in
  map b_quantity (batches db) = [-5] /\ ~ nonneg_batches db.
Proof.
  split; [reflexivity|]. intros H. inversion H as [|? ? Hq _]. vm_compute in Hq. now apply Hq.
Qed.







(** C7 fails on 3.py: [ReturnTab.process_return] only checks that the
    quantity is positive.  A return of 100 units against the sale item that
    sold 7 is accepted: the return is recorded and lot B grows by 100. *)
Theorem return_over_sold_accepted_in_rev3 :
  let db := example_sold in
  let row := nth_error (Rev3.load_sale db 1) 0 in
  let result := Rev3.process_return rowid_engine db row 100 "none" "2024-01-04 09:00:00" in
  option_map t_qty row = Some 7
  /\ snd result = [Info_ReturnDone]
  /\ map r_quantity (returns (fst result)) = [100]
  /\ batch_quantity (fst result) 2 = Some 108.
Proof. vm_compute. auto. Qed.




(** ** Ties between received dates *)

Section StableSort.
Variable A : Type.
Variable le : A -> A -> bool.
Variable before : A -> A -> Prop.
Hypothesis le_total : forall x y, le x y = true \/ le y x = true.
Hypothesis le_trans : forall x y z, le x y = true -> le y z = true -> le x z = true.




End StableSort.













(** * Further properties of the ledger code *)

(** ** Runs keep the ledger consistent *)

(** Whatever is typed into the dialogs of mainproject.py, starting from an
    empty ledger: batch ids and sale item ids stay unique and below their
    counters, and every allocation row holds a positive quantity and points
    to an existing sale item and an existing batch of that item's
    product. *)
Theorem run_from_empty_is_well_formed E ps ops :
  well_formed (MainRun.run E (empty_ledger ps) ops).
Proof. apply run_invariant. apply empty_ledger_well_formed. Qed.

(** In a run of mainproject.py without a short line, every sale item's
    current quantity is covered by the allocation rows of the item, which
    is what lets an accepted return be given back in full. *)
Theorem run_without_shortage_covers_items E ps ops :
  no_shortage E (empty_ledger ps) ops ->
  items_covered (MainRun.run E (empty_ledger ps) ops).
Proof.
  intros Hns.
  destruct (@run_invariant E ops (empty_ledger ps) (empty_ledger_well_formed ps)) as [_ H].
  apply H; [constructor | exact Hns].
Qed.

Lemma run_without_shortage_covers_items_witness :
  let ops := [Intake (example_form 10) "2024-01-01 09:00:00";
              SaleOp 1 "2024-01-02 09:00:00" [("P"%string, 3)] ReceiptOpened;
              ReturnOp 1 0 1 "changed mind" "2024-01-03 09:00:00"] in
  no_shortage rowid_engine (empty_ledger example_products) ops
  /\ items_covered (MainRun.run rowid_engine (empty_ledger example_products) ops).
Proof.
  intros ops.
  assert (H : no_shortage rowid_engine (empty_ledger example_products) ops).
  { unfold no_shortage. vm_compute. repeat constructor. }
  split; [exact H|].
  exact (@run_without_shortage_covers_items rowid_engine example_products ops H).
Defined.

(** Sales and returns of mainproject.py never take a batch below zero:
    from a well-formed ledger without negative batches, a run whose intakes
    are given quantities that are not negative keeps every batch at zero or
    above. *)
Lemma run_keeps_batches_nonneg E ops : forall db,
  well_formed db -> nonneg_batches db -> intake_quantities_nonneg ops ->
  nonneg_batches (MainRun.run E db ops).
Proof. exact (@run_nonneg E ops). Qed.

Lemma run_keeps_batches_nonneg_witness :
  let ops := [Intake (example_form 5) "2024-01-01 09:00:00";
              SaleOp 1 "2024-01-02 09:00:00" [("P"%string, 20)] ReceiptOpened;
              ReturnOp 1 0 9 "expired" "2024-01-03 09:00:00"] in
  well_formed (empty_ledger example_products)
  /\ nonneg_batches (empty_ledger example_products)
  /\ intake_quantities_nonneg ops
  /\ nonneg_batches (MainRun.run rowid_engine (empty_ledger example_products) ops).
Proof.
  intros ops.
  assert (H1 : well_formed (empty_ledger example_products))
    by apply empty_ledger_well_formed.
  assert (H2 : nonneg_batches (empty_ledger example_products)) by constructor.
  assert (H3 : intake_quantities_nonneg ops).
  { unfold intake_quantities_nonneg, ops. repeat constructor. simpl. lia. }
  split; [exact H1|]. split; [exact H2|]. split; [exact H3|].
  exact (@run_keeps_batches_nonneg rowid_engine ops _ H1 H2 H3).
Defined.

(** The check that opens the checkout of 4.py: when some line asks for more
    than the summed stock of its product, the sale is refused before
    anything is written. *)
Lemma Rev4_checkout_refuses_shortage E db user now cart it :
  In it cart -> total_stock db (c_id it) < c_qty it ->
  Rev4.checkout E db user now cart = (db, [Err_OutOfStock (Rev4.shortages db cart)])
  /\ Rev4.shortages db cart <> [].
Proof. apply rev4_refuses_shortage. Qed.

Lemma Rev4_checkout_refuses_shortage_witness :
  let it := mkCartLine 1 "P" 20 100 2000 in
  In it [it] /\ total_stock example_sold 1 < 20
  /\ fst (Rev4.checkout rowid_engine example_sold 1 "2024-01-03 10:00:00" [it])
     = example_sold.
Proof.
  intros it.
  assert (H1 : In it [it]) by now left.
  assert (H2 : total_stock example_sold (c_id it) < c_qty it) by (vm_compute; reflexivity).
  split; [exact H1|]. split; [exact H2|].
  destruct (@Rev4_checkout_refuses_shortage rowid_engine example_sold 1
              "2024-01-03 10:00:00" [it] it H1 H2) as [H _].
  rewrite H. reflexivity.
Defined.

(** ** The deduction loop *)

Lemma sumZ_alloc_rows_all sid plan : forall sq,
  sumZ sib_quantity (alloc_rows sq sid plan) = total plan.
Proof.
  induction plan as [|[bid t] plan IH]; intros sq; [reflexivity|].
  simpl. unfold sumZ, total in *. simpl. now rewrite IH.
Qed.

(** First in, first out: on a ledger that holds the sale item of the line,
    the k-th allocation of the line is drawn from the k-th row of the
    batches of the product with quantity > 0, sorted oldest first, and
    every allocation but the last takes its batch in full; a newer batch is
    touched only after all older ones are empty. *)
Theorem fifo_takes_older_batches_in_full E db pid qty sid pname k a :
  item_exists db sid = true ->
  let considered := fifo_batches E db pid in
  let new := added (sale_item_batches db)
               (sale_item_batches
                  (fst (Main._fifo_deduct_with_batch_tracking E db pid qty sid pname))) in
  nth_error new k = Some a ->
  Permutation
    (filter (fun b => (b_product_id b =? pid) && (b_quantity b >? 0)) (batches db))
    considered
  /\ Sorted (fun x y => String.leb (b_created_at x) (b_created_at y) = true) considered
  /\ exists b,
       nth_error considered k = Some b
       /\ In b (batches db) /\ b_product_id b = pid /\ 0 < b_quantity b
       /\ sib_sale_item_id a = sid
       /\ sib_batch_id a = b_id b
       /\ 0 < sib_quantity a <= b_quantity b
       /\ ((S k < List.length new)%nat -> sib_quantity a = b_quantity b).
Proof.
  intros Hi considered new. unfold new.
  rewrite (@fifo_result E db pid qty sid pname Hi). cbv zeta.
  cbn [fst sale_item_batches]. rewrite added_app, alloc_rows_length. intros Ha.
  split; [apply fifo_batches_perm|].
  split; [apply (order_by_sorted E created_asc created_asc_total)|].
  pose proof (alloc_rows_nth _ _ _ _ Ha) as Hp.
  pose proof (nth_error_In _ _ Ha) as Hain. apply alloc_rows_in in Hain.
  destruct Hain as [Hsid Hpin].
  pose proof (min_plan_entries (fifo_rows_positive E db pid) qty) as Hent.
  rewrite Forall_forall in Hent. destruct (Hent _ Hpin) as [Hpos _]. simpl in Hpos.
  assert (Hle : Forall2 (fun p row => fst p = fst row /\ 0 <= snd p <= snd row)
            (min_plan (fifo_rows E db pid) qty)
            (firstn (List.length (min_plan (fifo_rows E db pid) qty)) (fifo_rows E db pid))).
  { rewrite <- (map_id (fifo_rows E db pid)) at 1 2.
    apply (min_plan_bounded (fun p : Z * Z => p)).
    - apply fifo_rows_nonneg.
    - assert (Hne : min_plan (fifo_rows E db pid) qty <> []).
      { intros Hnil. rewrite Hnil in Hp. destruct k; discriminate. }
      destruct (Z.leb_spec qty 0); [|lia].
      exfalso. apply Hne. destruct (fifo_rows E db pid) as [|[? ?] ?]; simpl; [reflexivity|].
      rewrite (proj2 (Z.leb_le qty 0)); auto. }
  destruct (min_plan_nth _ _ _ Hp) as (row & H1 & H2 & H3).
  unfold fifo_rows in H1. rewrite nth_error_map in H1.
  fold considered in H1.
  destruct (nth_error considered k) as [b|] eqn:Hb; [|discriminate].
  simpl in H1. injection H1 as <-. simpl in *.
  assert (Hbin : In b considered) by (eapply nth_error_In; exact Hb).
  pose proof (fifo_batches_in_stock E db pid) as Hst. rewrite Forall_forall in Hst.
  destruct (Hst b Hbin) as [Hbp Hbq].
  exists b. split; [reflexivity|].
  split.
  { apply (Permutation_in _ (Permutation_sym (fifo_batches_perm E db pid))) in Hbin.
    apply filter_In in Hbin. tauto. }
  split; [exact Hbp|]. split; [exact Hbq|]. split; [exact Hsid|].
  split; [assumption|]. split; [|assumption].
  split; [exact Hpos|].
  clear H3. revert Hle Hp Hb. unfold fifo_rows. fold considered.
  generalize (min_plan (map (fun b0 => (b_id b0, b_quantity b0)) considered) qty).
  generalize considered. clear. intros bs plan. revert bs k.
  induction plan as [|p plan IH]; intros bs k Hle Hp Hb; [destruct k; discriminate|].
  destruct bs as [|x bs]; [destruct k; discriminate|].
  simpl in Hle. inversion Hle as [|? ? ? ? Hhd Htl]; subst.
  destruct k as [|k]; simpl in *.
  - injection Hp as ->. injection Hb as ->. simpl in Hhd. lia.
  - eapply IH; eauto.
Qed.

Lemma fifo_takes_older_batches_in_full_witness :
  item_exists example_line 1 = true
  /\ exists a,
    nth_error (added (sale_item_batches example_line)
                 (sale_item_batches
                    (fst (Main._fifo_deduct_with_batch_tracking rowid_engine
                            example_line 1 7 1 "P")))) 0 = Some a
    /\ sib_batch_id a = 1 /\ sib_quantity a = 5.
Proof.
  assert (Hi : item_exists example_line 1 = true) by reflexivity.
  split; [exact Hi|].
  eexists. split; [vm_compute; reflexivity|].
  destruct (@fifo_takes_older_batches_in_full rowid_engine example_line 1 7 1 "P" 0
              (mkSaleItemBatch 1 1 1 5) Hi ltac:(vm_compute; reflexivity))
    as (_ & _ & b & Hb & _ & _ & _ & _ & H1 & _ & H2).
  vm_compute in Hb. injection Hb as <-. split; [exact H1|].
  apply H2. vm_compute. reflexivity.
Defined.

(** A request the batches in stock cover is planned in full. *)
Lemma full_plan E db pid qty :
  NoDup (map b_id (batches db)) ->
  0 < qty ->
  qty <= sumZ b_quantity (filter (in_stock_of pid) (batches db)) ->
  let plan := min_plan (fifo_rows E db pid) qty in
  total plan = qty
  /\ (forall sq sid, sumZ sib_quantity (alloc_rows sq sid plan) = qty)
  /\ (forall other,
        total_stock (set_batches db (deduct plan (batches db)) (seq_batches db)) other
        = total_stock db other - (if pid =? other then qty else 0)).
Proof.
  intros Hnd Hq Hav plan.
  set (i := mkCartLine pid EmptyString qty 0 0).
  pose proof (line_plan_entries E db i) as Hent.
  change (line_plan E db i) with plan in Hent. change (c_id i) with pid in Hent.
  assert (Htot : total plan = qty).
  { unfold plan. rewrite (@min_plan_total _ (fifo_rows_nonneg E db pid) qty) by lia.
    assert (Hsum : total (fifo_rows E db pid)
                   = sumZ b_quantity (filter (in_stock_of pid) (batches db))).
    { unfold total, fifo_rows. rewrite map_map. simpl.
      symmetry. apply (sumZ_perm _ (fifo_batches_perm E db pid)). }
    lia. }
  split; [exact Htot|]. split.
  - intros sq sid. now rewrite sumZ_alloc_rows_all.
  - intros other. unfold total_stock. cbn [batches set_batches].
    change (fold_right Z.add 0 (map b_quantity ?l)) with (sumZ b_quantity l).
    rewrite (@stock_after_deduct (batches db) pid other plan Hnd); [now rewrite Htot|].
    eapply Forall_impl; [|exact Hent]. simpl. tauto.
Qed.

(** A line that finds at least its quantity in the batches of the product
    with quantity > 0 is allocated exactly that quantity: no warning is
    shown, the new allocation rows sum to the requested quantity, and the
    product's on-hand stock drops by it while every other product keeps
    its stock. *)
Theorem sufficient_stock_is_allocated_in_full E db pid qty sid pname :
  item_exists db sid = true ->
  NoDup (map b_id (batches db)) ->
  0 < qty ->
  qty <= fold_right Z.add 0
           (map b_quantity
              (filter (fun b => (b_product_id b =? pid) && (b_quantity b >? 0))
                      (batches db))) ->
  let result := Main._fifo_deduct_with_batch_tracking E db pid qty sid pname in
  snd result = inl []
  /\ sumZ sib_quantity (added (sale_item_batches db) (sale_item_batches (fst result))) = qty
  /\ on_hand (fst result) pid = on_hand db pid - qty
  /\ forall other, other <> pid -> on_hand (fst result) other = on_hand db other.
Proof.
  intros Hi Hnd Hq Hav result. unfold result.
  destruct (@full_plan E db pid qty Hnd Hq Hav) as (Htot & Hal & Hst).
  rewrite (@fifo_result E db pid qty sid pname Hi). cbv zeta.
  cbn [fst snd sale_item_batches]. rewrite added_app, Htot, Hal.
  split; [destruct (Z.gtb_spec (qty - qty) 0); [lia | reflexivity]|].
  split; [reflexivity|].
  unfold on_hand. split.
  - transitivity (total_stock db pid - (if pid =? pid then qty else 0)); [apply Hst|].
    now rewrite Z.eqb_refl.
  - intros other Hne.
    transitivity (total_stock db other - (if pid =? other then qty else 0)); [apply Hst|].
    apply not_eq_sym in Hne. apply Z.eqb_neq in Hne. rewrite Hne. lia.
Qed.

Lemma sufficient_stock_is_allocated_in_full_witness :
  item_exists example_line 1 = true
  /\ NoDup (map b_id (batches example_line)) /\ 0 < 7
  /\ 7 <= fold_right Z.add 0
            (map b_quantity
               (filter (fun b => (b_product_id b =? 1) && (b_quantity b >? 0))
                       (batches example_line)))
  /\ on_hand (fst (Main._fifo_deduct_with_batch_tracking rowid_engine
                     example_line 1 7 1 "P")) 1 = 15 - 7.
Proof.
  assert (H0 : item_exists example_line 1 = true) by reflexivity.
  assert (H1 : NoDup (map b_id (batches example_line))).
  { vm_compute. repeat constructor; simpl; intuition discriminate. }
  assert (H3 : 7 <= fold_right Z.add 0
            (map b_quantity
               (filter (fun b => (b_product_id b =? 1) && (b_quantity b >? 0))
                       (batches example_line))))
    by (vm_compute; discriminate).
  split; [exact H0|]. split; [exact H1|]. split; [lia|]. split; [exact H3|].
  destruct (@sufficient_stock_is_allocated_in_full rowid_engine example_line 1 7 1 "P"
              H0 H1 ltac:(lia) H3) as (_ & _ & H & _).
  etransitivity; [exact H|]. vm_compute. reflexivity.
Defined.

(** ** Returns *)

(** In mainproject.py, a return accepted against a sale item whose
    quantity is covered by its own allocation rows puts exactly the
    returned quantity back on the item's product, leaves every other
    product's stock alone, and lowers the units recorded as sold by the
    same amount; the other items of the ledger need not be covered. *)
Theorem covered_return_restocks_in_full E db si r reason row :
  well_formed db -> In si (sale_items db) ->
  si_quantity si <= sumZ sib_quantity (allocations_of db (si_id si)) ->
  t_id row = si_id si -> t_qty row = si_quantity si ->
  0 < r <= si_quantity si ->
  let db' := fst (Main._process_return E db (Some row) r reason) in
  on_hand db' (si_product_id si) = on_hand db (si_product_id si) + r
  /\ sold db' (si_product_id si) = sold db (si_product_id si) - r
  /\ forall other, other <> si_product_id si ->
       on_hand db' other = on_hand db other /\ sold db' other = sold db other.
Proof.
  intros W Hsi Hcov Hid Hqty Hr db'. unfold db'.
  assert (Hrow : 0 < r <= t_qty row) by lia.
  pose proof (@return_stock E db si r reason row W Hsi Hid Hrow) as Hstock.
  pose proof (@return_sold E db si r reason row W Hsi Hid Hrow) as Hsold.
  rewrite (@return_plan_total E db si r W Hsi Hcov Hr) in Hstock.
  split; [rewrite Hstock, Z.eqb_refl; reflexivity|].
  split; [rewrite Hsold, Z.eqb_refl; reflexivity|].
  intros other Hne. rewrite Hstock, Hsold.
  apply not_eq_sym in Hne. apply Z.eqb_neq in Hne. rewrite Hne. lia.
Qed.

Lemma covered_return_restocks_in_full_witness :
  let si := mkSaleItem 1 1 1 7 100 in
  let row := mkTreeRow 1 "P" 7 100 1 in
  well_formed example_short
  /\ In si (sale_items example_short)
  /\ si_quantity si <= sumZ sib_quantity (allocations_of example_short (si_id si))
  /\ ~ items_covered example_short
  /\ 0 < 2 <= 7
  /\ on_hand (fst (Main._process_return rowid_engine example_short (Some row) 2 "damaged")) 1
     = 0 + 2.
Proof.
  intros si row.
  assert (H1 : well_formed example_short)
    by apply run_invariant, run_invariant, run_invariant, empty_ledger_well_formed.
  assert (H2 : In si (sale_items example_short)) by (vm_compute; auto).
  assert (H3 : si_quantity si
               <= sumZ sib_quantity (allocations_of example_short (si_id si)))
    by (vm_compute; discriminate).
  split; [exact H1|]. split; [exact H2|]. split; [exact H3|]. split.
  { intros Hc. unfold items_covered in Hc. rewrite Forall_forall in Hc.
    specialize (Hc (mkSaleItem 2 2 1 20 100) ltac:(vm_compute; auto)).
    vm_compute in Hc. now apply Hc. }
  split; [lia|].
  destruct (@covered_return_restocks_in_full rowid_engine example_short si 2 "damaged" row
              H1 H2 H3 eq_refl eq_refl ltac:(simpl; lia)) as (H & _).
  etransitivity; [exact H|]. vm_compute. reflexivity.
Defined.




(** ** Intake needs a product *)

(** Neither add-batch dialog creates a batch for a product name that is
    not in the catalogue, whatever quantity is given: mainproject.py
    answers that the product is required, 3.py refuses a quantity that is
    not positive first and otherwise fails in the INSERT, on the binding of
    a quantity outside 64 bits or else on the NOT NULL column. *)
Theorem intake_of_unknown_product_writes_nothing db d now :
  product_by_name db (f_product d) = None ->
  Main._add_batch db d now = (db, [Err_ProductRequired])
  /\ fst (Rev3.add_item db d now) = db
  /\ (f_product d <> EmptyString -> 0 < f_quantity d ->
      snd (Rev3.add_item db d now)
      = [Uncaught (if fits_int64 (f_quantity d) then IntegrityError else OverflowError)]).
Proof.
  intros Hp. unfold Main._add_batch, Rev3.add_item. rewrite Hp. simpl.
  split; [reflexivity|]. split.
  - destruct (f_product d); [reflexivity|]. destruct (f_quantity d <=? 0); [reflexivity|].
    now destruct (fits_int64 (f_quantity d)).
  - intros Hne Hq. destruct (f_product d); [congruence|].
    destruct (Z.leb_spec (f_quantity d) 0); [lia|].
    now destruct (fits_int64 (f_quantity d)).
Qed.

Lemma intake_of_unknown_product_writes_nothing_witness :
  product_by_name (empty_ledger example_products) "Q" = None
  /\ Main._add_batch (empty_ledger example_products)
       (mkBatchForm "Q" None "L" 5 "" 0) "2024-01-01 09:00:00"
     = (empty_ledger example_products, [Err_ProductRequired]).
Proof.
  assert (H : product_by_name (empty_ledger example_products)
                (f_product (mkBatchForm "Q" None "L" 5 "" 0)) = None) by reflexivity.
  split; [exact H|].
  destruct (@intake_of_unknown_product_writes_nothing (empty_ledger example_products)
              (mkBatchForm "Q" None "L" 5 "" 0) "2024-01-01 09:00:00" H) as [H1 _].
  exact H1.
Defined.

(** ** Deleting a batch *)

(** Deleting a batch in mainproject.py takes its allocation rows with it,
    so the ledger stays well formed and no allocation is left pointing at
    a missing batch; the on-hand stock of the batch's product drops by
    what the batch held and no other product is affected.  Declining the
    confirmation, or having no row selected, changes nothing. *)
Theorem delete_batch_cascades db b :
  well_formed db -> In b (batches db) ->
  let db' := _delete_batch db (Some (b_id b)) true in
  well_formed db'
  /\ Forall (fun a => sib_batch_id a <> b_id b) (sale_item_batches db')
  /\ ~ In b (batches db')
  /\ on_hand db' (b_product_id b) = on_hand db (b_product_id b) - b_quantity b
  /\ (forall other, other <> b_product_id b -> on_hand db' other = on_hand db other)
  /\ _delete_batch db (Some (b_id b)) false = db
  /\ _delete_batch db None true = db.
Proof.
  intros W Hb db'. pose proof W as [W1 W2 W3 W4 W5].
  assert (Hstock : forall pid, on_hand db' pid
            = on_hand db pid - (if b_product_id b =? pid then b_quantity b else 0)).
  { intros pid. unfold db', on_hand, total_stock. cbn [_delete_batch batches].
    change (fold_right Z.add 0 (map b_quantity ?l)) with (sumZ b_quantity l).
    rewrite sumZ_filter_split. f_equal.
    rewrite <- (@sumZ_single _ b_id (batches db)
                  (fun x => b_product_id x =? pid) b_quantity b W1 Hb).
    unfold sumZ. f_equal. apply map_ext. intros x.
    rewrite (Z.eqb_sym (b_id b)). now destruct (b_id x =? b_id b). }
  split; [|split; [|split; [|split; [|split; [|split; reflexivity]]]]].
  - constructor; cbn [_delete_batch batches seq_batches sale_items seq_sale_items
                      sale_item_batches]; try assumption.
    + now apply NoDup_map_filter.
    + apply Forall_forall. intros x Hx. apply filter_In in Hx.
      rewrite Forall_forall in W2. apply W2. tauto.
    + apply Forall_forall. intros a Ha. apply filter_In in Ha. destruct Ha as [Ha Hne].
      rewrite Forall_forall in W5.
      destruct (W5 a Ha) as (Hq & si & x & H1 & H2 & H3 & H4 & H5).
      split; [assumption|]. exists si, x. simpl. repeat split; auto.
      apply filter_In. split; [assumption|]. now rewrite H4.
  - apply Forall_forall. intros a Ha. cbn [_delete_batch sale_item_batches] in Ha.
    apply filter_In in Ha. destruct Ha as [_ Hne].
    apply negb_true_iff, Z.eqb_neq in Hne. exact Hne.
  - intros Hin. cbn [_delete_batch batches] in Hin. apply filter_In in Hin.
    destruct Hin as [_ Hne]. rewrite Z.eqb_refl in Hne. discriminate.
  - rewrite Hstock, Z.eqb_refl. reflexivity.
  - intros other Hne. rewrite Hstock. apply not_eq_sym in Hne.
    apply Z.eqb_neq in Hne. rewrite Hne. lia.
Qed.

Lemma delete_batch_cascades_witness :
  let b := mkBatch 1 1 None (Some "L"%string) 0 None 0 "2024-01-01 09:00:00" in
  well_formed example_sold /\ In b (batches example_sold)
  /\ map allocation (sale_item_batches (_delete_batch example_sold (Some 1) true))
     = [(1, 2, 2)]
  /\ well_formed (_delete_batch example_sold (Some 1) true).
Proof.
  intros b.
  assert (H1 : well_formed example_sold) by apply run_invariant, run_invariant,
    empty_ledger_well_formed.
  assert (H2 : In b (batches example_sold)) by (vm_compute; auto).
  split; [exact H1|]. split; [exact H2|]. split; [reflexivity|].
  destruct (@delete_batch_cascades example_sold b H1 H2) as (H & _).
  exact H.
Defined.

(** ** The stock check of 4.py *)



(** ** Sold quantities stay non-negative *)

Lemma item_rows_positive sid cart : forall sq,
  Forall (fun c => 0 < c_qty c) cart ->
  Forall (fun i => 0 <= si_quantity i) (item_rows sq sid cart).
Proof.
  induction cart as [|c cart IH]; intros sq H; [constructor|].
  inversion H; subst. simpl. constructor; [simpl; lia | now apply IH].
Qed.

Lemma step_items_nonneg E db o :
  well_formed db -> items_nonneg db -> items_nonneg (fst (MainRun.step E db o)).
Proof.
  intros W Hnn. unfold items_nonneg in *.
  destruct o as [d now|user now entries receipt|sale_id k q reason now];
    cbn [MainRun.step].
  - destruct (add_batch_cases db d now) as [->|[->|(p & _ & _ & ->)]]; exact Hnn.
  - assert (Hdb : fst (shown (Main.checkout E db user now receipt
                                (MainRun.fill_cart db entries)))
                  = fst (fst (Main.checkout E db user now receipt
                                (MainRun.fill_cart db entries)))) by reflexivity.
    rewrite Hdb, checkout_db.
    pose proof (fill_cart_positive db entries) as Hc.
    destruct (MainRun.fill_cart db entries) as [|c cart] eqn:Hcart; [exact Hnn|].
    destruct (checkout_lines_prefix E (c :: cart)
                (fst (insert_sale db user
                        (fold_right Z.add 0 (map c_subtotal (c :: cart))) now))
                (seq_sales db + 1)) as (done & rest & Hsplit & Hfold & _).
    cbv zeta in Hfold. rewrite Hfold.
    destruct (lines_db_tables E (seq_sales db + 1) done
                (fst (insert_sale db user
                        (fold_right Z.add 0 (map c_subtotal (c :: cart))) now)))
      as (_ & _ & _ & _ & _ & _ & _ & Hitems & _).
    rewrite Hitems. apply Forall_app. split; [exact Hnn|].
    apply item_rows_positive. rewrite Hsplit in Hc. apply Forall_app in Hc. tauto.
  - destruct (nth_error (Main._load_sale_for_return db sale_id) k) as [row|] eqn:Hrow;
      [|exact Hnn].
    apply nth_error_In in Hrow. apply load_sale_row in Hrow.
    destruct Hrow as (si & Hsi & _ & Hid & _ & Hqty).
    destruct (Z_lt_dec 0 q) as [Hq1|Hq1]; [destruct (Z_le_dec q (t_qty row)) as [Hq2|Hq2]|].
    + rewrite process_return_accepted by lia. cbn [sale_items].
      rewrite Forall_map. apply Forall_forall. intros x Hx.
      rewrite Forall_forall in Hnn. specialize (Hnn x Hx).
      unfold adjust_item. destruct (Z.eqb_spec (si_id x) (t_id row)) as [He|He]; [|exact Hnn].
      assert (x = si).
      { apply (@NoDup_key_inj _ si_id (sale_items db)); auto.
        - apply (wf_item_ids W).
        - congruence. }
      subst x. simpl. lia.
    + rewrite process_return_rejected; [exact Hnn|].
      intros row' Heq. injection Heq as <-. lia.
    + rewrite process_return_rejected; [exact Hnn|].
      intros row' Heq. injection Heq as <-. lia.
Qed.

(** Whatever is sold and returned in mainproject.py, starting from an
    empty ledger, no sale item's quantity ever becomes negative: a line
    enters with a positive quantity and a return takes at most what the
    item still records. *)
Theorem run_keeps_sold_quantities_nonneg E ps ops :
  items_nonneg (MainRun.run E (empty_ledger ps) ops).
Proof.
  assert (H : forall ops db, well_formed db -> items_nonneg db ->
                             items_nonneg (MainRun.run E db ops)).
  { clear ops. induction ops as [|o ops IH]; intros db W Hnn; [exact Hnn|].
    change (MainRun.run E db (o :: ops))
      with (MainRun.run E (fst (MainRun.step E db o)) ops).
    apply IH.
    - now destruct (@step_invariant E db o W) as (H1 & _).
    - now apply step_items_nonneg. }
  apply H; [apply empty_ledger_well_formed | constructor].
Qed.

